(** * Kubernetes datastore backend of libcalico-go (lib/backend/k8s/k8s.go)

    A shallow embedding of the adapter that routes typed keys and list
    queries to per-kind resource clients, of its client factory, of the
    derived host-config values and of the [Clean] utility, followed by the
    properties of the embedded code. *)

From Stdlib Require Import ZArith NArith QArith Ascii String List Lia.
From stdpp Require Import base option list countable strings gmap.

Local Open Scope string_scope.
Local Open Scope list_scope.

(** ** Data model (package model) *)

(** Modelled from the spec: the Calico node resource [libapiv3.Node], whose
    declaration is not among the sources; its name and the BGP part of its
    spec ("routing-configuration subfield"), which [Clean] clears. *)
Record BGPSpec := mkBGPSpec {
  IPv4Address : string;
  ASNumber : string;
}.

Record Node := mkNode {
  NodeName : string;
  SpecBGP : option BGPSpec;
}.

(** Modelled from the spec: the key types of package model, whose
    declarations are not among the sources: the generic
    [ResourceKey{Kind, Namespace, Name}] and the narrow key variants.  A
    value of the interface type [model.Key] is one of them or the nil
    interface value, [NilKey]; [OtherKey] stands for the key types of
    package model that this backend never registers. *)
Inductive Key :=
| NilKey
| ResourceKey (Kind Namespace Name : string)
| BlockKey (CIDR : string)
| BlockAffinityKey (CIDR Host : string)
| IPAMHandleKey (HandleID : string)
| IPAMConfigKey
| HostConfigKey (Hostname Name : string)
| ReadyFlagKey
| OtherKey (typeName : string) (path : string).

(** Modelled from the spec: the list queries of package model, which
    mirror the keys; [NilList] is the nil interface value. *)
Inductive ListInterface :=
| NilList
| ResourceListOptions (Kind Namespace Name : string)
| BlockListOptions (IPVersion : Z)
| BlockAffinityListOptions (Host : string) (IPVersion : Z)
| IPAMHandleListOptions
| HostConfigListOptions (Hostname Name : string)
| OtherListOptions (typeName : string) (path : string).

(** The struct types [model.ReadyFlagKey] and [model.HostConfigListOptions],
    for the functions that take them as such, and their conversion to the
    interface types. *)
Record ReadyFlagKeyStruct : Set := mkReadyFlagKey { }.

Record HostConfigListOptionsStruct := mkHostConfigListOptions {
  ListHostname : string;
  ListName : string;
}.

Definition KeyOfReadyFlagKey (k : ReadyFlagKeyStruct) : Key := ReadyFlagKey.

Definition ListOfHostConfigListOptions (l : HostConfigListOptionsStruct) : ListInterface :=
  HostConfigListOptions (ListHostname l) (ListName l).

(** Values of type [interface{}] held in a KVPair. *)
Inductive Value :=
| NilValue
| VBool (b : bool)
| VString (s : string)
| VNode (n : Node)
| VResource (kind : string) (payload : string).

(** Modelled from the spec: [model.KVPair], the record
    [{Key, Value, Revision}]. *)
Record KVPair := mkKVPair {
  KVKey : Key;
  KVValue : Value;
  Revision : string;
}.

Record KVPairList := mkKVPairList {
  KVPairs : list KVPair;
  ListRevision : string;
}.

Record WatchOptions := mkWatchOptions {
  WatchRevision : string;
  AllowWatchBookmarks : bool;
}.

(** An established watch is an opaque handle for this adapter. *)
Record WatchInterface := mkWatch { watchHandle : nat }.

(** ** reflect.Type *)

(** The dynamic types the adapter tells apart.  A [reflect.Type] that may be
    nil is an [option GoType]. *)
Inductive GoType :=
| TResourceKey
| TBlockKey
| TBlockAffinityKey
| TIPAMHandleKey
| TIPAMConfigKey
| THostConfigKey
| TReadyFlagKey
| TResourceListOptions
| TBlockListOptions
| TBlockAffinityListOptions
| TIPAMHandleListOptions
| THostConfigListOptions
| TOther (typeName : string).

#[global] Instance GoType_eq_dec : EqDecision GoType.
Proof. solve_decision. Defined.

Definition GoType_code (t : GoType) : nat + string :=
  match t with
  | TResourceKey => inl 0%nat
  | TBlockKey => inl 1%nat
  | TBlockAffinityKey => inl 2%nat
  | TIPAMHandleKey => inl 3%nat
  | TIPAMConfigKey => inl 4%nat
  | THostConfigKey => inl 5%nat
  | TReadyFlagKey => inl 6%nat
  | TResourceListOptions => inl 7%nat
  | TBlockListOptions => inl 8%nat
  | TBlockAffinityListOptions => inl 9%nat
  | TIPAMHandleListOptions => inl 10%nat
  | THostConfigListOptions => inl 11%nat
  | TOther s => inr s
  end.

Definition GoType_decode (c : nat + string) : GoType :=
  match c with
  | inl 0%nat => TResourceKey
  | inl 1%nat => TBlockKey
  | inl 2%nat => TBlockAffinityKey
  | inl 3%nat => TIPAMHandleKey
  | inl 4%nat => TIPAMConfigKey
  | inl 5%nat => THostConfigKey
  | inl 6%nat => TReadyFlagKey
  | inl 7%nat => TResourceListOptions
  | inl 8%nat => TBlockListOptions
  | inl 9%nat => TBlockAffinityListOptions
  | inl 10%nat => TIPAMHandleListOptions
  | inl _ => THostConfigListOptions
  | inr s => TOther s
  end.

#[global] Instance GoType_countable : Countable GoType.
Proof.
  apply (inj_countable' GoType_code GoType_decode).
  intros []; reflexivity.
Defined.

(** [reflect.TypeOf] on a key: nil for the nil interface value. *)
Definition TypeOfKey (key : Key) : option GoType :=
  match key with
  | NilKey => None
  | ResourceKey _ _ _ => Some TResourceKey
  | BlockKey _ => Some TBlockKey
  | BlockAffinityKey _ _ => Some TBlockAffinityKey
  | IPAMHandleKey _ => Some TIPAMHandleKey
  | IPAMConfigKey => Some TIPAMConfigKey
  | HostConfigKey _ _ => Some THostConfigKey
  | ReadyFlagKey => Some TReadyFlagKey
  | OtherKey t _ => Some (TOther t)
  end.

(** [reflect.TypeOf] on a list query. *)
Definition TypeOfList (list : ListInterface) : option GoType :=
  match list with
  | NilList => None
  | ResourceListOptions _ _ _ => Some TResourceListOptions
  | BlockListOptions _ => Some TBlockListOptions
  | BlockAffinityListOptions _ _ => Some TBlockAffinityListOptions
  | IPAMHandleListOptions => Some TIPAMHandleListOptions
  | HostConfigListOptions _ _ => Some THostConfigListOptions
  | OtherListOptions t _ => Some (TOther t)
  end.

Definition resourceKeyType : option GoType := Some TResourceKey.
Definition resourceListType : option GoType := Some TResourceListOptions.

(** ** Errors (package cerrors) *)

(** Modelled from the spec: the error types of package cerrors, whose
    declarations are not among the sources.  The [Identifier] of an error
    is an [interface{}]: here a key or a list query. *)
Inductive Identifier :=
| IdNil
| IdKey (k : Key)
| IdList (l : ListInterface).

(** An error of the Kubernetes client libraries, before translation. *)
Record K8sError := mkK8sError {
  k8sReason : string;
  k8sMessage : string;
}.

(** The errors the adapter meets: those of package cerrors, the parse error
    of package net and the wrapping done with [fmt.Errorf]. *)
Inductive Error :=
| ErrorOperationNotSupported (Ident : Identifier) (Operation : string)
| ErrorResourceAlreadyExists (Ident : Identifier) (Err : string)
| ErrorResourceDoesNotExist (Ident : Identifier) (Err : string)
| ErrorResourceUpdateConflict (Ident : Identifier) (Err : string)
| ErrorDatastoreError (Ident : Identifier) (Err : string)
| ErrorParse (Text : string)
| ErrorWrapped (format : string) (cause : K8sError).

(** The type assertion [err.(cerrors.ErrorResourceAlreadyExists)]. *)
Definition isErrorResourceAlreadyExists (err : Error) : bool :=
  match err with
  | ErrorResourceAlreadyExists _ _ => true
  | _ => false
  end.

(** A Go result [(T, error)]: the value when the error is nil, the error
    otherwise. *)
Inductive result (A : Type) :=
| Ok (a : A)
| Err (e : Error).
Arguments Ok {A} a.
Arguments Err {A} e.

(** ** Log entries and calls *)

Inductive Level := Debug | Info | Warning.

Inductive LogArg :=
| AKVPair (d : KVPair)
| AKey (k : Key)
| AList (l : ListInterface)
| AType (t : option GoType)
| AString (s : string)
| AError (e : Error)
| AValue (v : Value)
| AField (name : string) (v : LogArg).

(** A method of a resource client, with its arguments. *)
Inductive HandlerCall :=
| HCreate (d : KVPair)
| HUpdate (d : KVPair)
| HDelete (k : Key) (revision : string) (uid : option string)
| HDeleteKVP (d : KVPair)
| HGet (k : Key) (revision : string)
| HList (l : ListInterface) (revision : string)
| HWatch (l : ListInterface) (options : WatchOptions).

(** What a resource client answered. *)
Inductive HandlerAnswer :=
| AnsKVPair (r : result KVPair)
| AnsList (r : result KVPairList)
| AnsWatch (r : result WatchInterface).

(** A Kubernetes node object ([v1.Node]): name and pod CIDR. *)
Record K8sNode := mkK8sNode {
  Name : string;
  PodCIDR : string;
}.

(** A call on the clientset's [CoreV1().Nodes()]. *)
Inductive NodesCall :=
| NodesList
| NodesGet (name : string).

(** What an operation leaves behind, in order: the log entries it writes,
    the resource-client methods it invokes and the calls it makes on the
    clientset. *)
Inductive Event :=
| EvLog (lvl : Level) (msg : string) (args : list LogArg)
| EvCall (call : HandlerCall) (answer : HandlerAnswer)
| EvNodes (call : NodesCall).

(** ** Connection configuration (apiconfig, clientcmd, rest) *)

(** Modelled from the spec: the Kubernetes part of
    [apiconfig.CalicoAPIConfigSpec], with the fields [k8s.go] reads.  The
    client QPS, a float32 in the source, is a rational here. *)
Record CalicoAPIConfigSpec := mkCalicoAPIConfigSpec {
  Kubeconfig : string;
  K8sAPIEndpoint : string;
  K8sKeyFile : string;
  K8sCertFile : string;
  K8sCAFile : string;
  K8sAPIToken : string;
  K8sInsecureSkipTLSVerify : bool;
  K8sDisableNodePoll : bool;
  K8sUsePodCIDR : bool;
  KubeconfigInline : string;
  K8sClientQPS : Q;
  K8sCurrentContext : string;
}.

(** [clientcmd.ConfigOverrides], with the fields of its [ClusterInfo] and
    [AuthInfo] that the adapter sets. *)
Record ConfigOverrides := mkConfigOverrides {
  CurrentContext : string;
  ClusterInfo_Server : string;
  ClusterInfo_CertificateAuthority : string;
  ClusterInfo_InsecureSkipTLSVerify : bool;
  AuthInfo_ClientCertificate : string;
  AuthInfo_ClientKey : string;
  AuthInfo_Token : string;
}.

(** [clientcmd.ClientConfigLoadingRules]. *)
Record ClientConfigLoadingRules := mkLoadingRules {
  ExplicitPath : string;
  Precedence : list string;
  WarnIfAllMissing : bool;
}.

(** [rest.Config]. *)
Record RestConfig := mkRestConfig {
  Host : string;
  APIPath : string;
  AcceptContentTypes : string;
  ContentType : string;
  GroupVersion : option (string * string);
  NegotiatedSerializer : string;
  BearerToken : string;
  TLSInsecure : bool;
  TLSCertFile : string;
  TLSKeyFile : string;
  TLSCAFile : string;
  QPS : Q;
  Burst : Z;
}.

(** A parsed kubeconfig ([clientcmd.ClientConfig]). *)
Record ClientConfig := mkClientConfig { kubeconfigBytes : string }.

(** The REST clients are opaque to the adapter: each is known by the
    configuration it was built from. *)
Record RESTClient := mkRESTClient { restClientConfig : RestConfig }.
Record PolicyV1alpha1Client := mkPolicyClient { policyClientConfig : RestConfig }.

Definition ContentTypeJSON : string := "application/json".
Definition ContentTypeProtobuf : string := "application/vnd.kubernetes.protobuf".

(** Modelled from the spec: the kind names of packages apiv3, libapiv3 and
    model, and the name of the global IPAM config. *)
Definition KindIPPool := "IPPool".
Definition KindIPReservation := "IPReservation".
Definition KindGlobalNetworkPolicy := "GlobalNetworkPolicy".
Definition KindStagedGlobalNetworkPolicy := "StagedGlobalNetworkPolicy".
Definition KindKubernetesAdminNetworkPolicy := "KubernetesAdminNetworkPolicy".
Definition KindKubernetesBaselineAdminNetworkPolicy := "KubernetesBaselineAdminNetworkPolicy".
Definition KindGlobalNetworkSet := "GlobalNetworkSet".
Definition KindNetworkPolicy := "NetworkPolicy".
Definition KindStagedNetworkPolicy := "StagedNetworkPolicy".
Definition KindKubernetesNetworkPolicy := "KubernetesNetworkPolicy".
Definition KindStagedKubernetesNetworkPolicy := "StagedKubernetesNetworkPolicy".
Definition KindKubernetesEndpointSlice := "KubernetesEndpointSlice".
Definition KindNetworkSet := "NetworkSet".
Definition KindTier := "Tier".
Definition KindBGPPeer := "BGPPeer".
Definition KindBGPConfiguration := "BGPConfiguration".
Definition KindFelixConfiguration := "FelixConfiguration".
Definition KindClusterInformation := "ClusterInformation".
Definition KindNode := "Node".
Definition KindProfile := "Profile".
Definition KindHostEndpoint := "HostEndpoint".
Definition KindWorkloadEndpoint := "WorkloadEndpoint".
Definition KindKubeControllersConfiguration := "KubeControllersConfiguration".
Definition KindCalicoNodeStatus := "CalicoNodeStatus".
Definition KindKubernetesService := "KubernetesService".
Definition KindIPAMConfig := "IPAMConfig".
Definition KindBlockAffinity := "BlockAffinity".
Definition KindBGPFilter := "BGPFilter".
Definition KindIPAMBlock := "IPAMBlock".
Definition KindIPAMHandle := "IPAMHandle".
Definition IPAMConfigGlobalName := "default".

(** ** Addresses (packages net and lib/net) *)

(** A [net.IP] is a byte slice; the nil slice is the empty list. *)
Definition IP := list N.

Record IPNet := mkIPNet {
  NetIP : IP;
  Mask : list N;
}.

Definition is_digit (c : ascii) : bool :=
  let n := N_of_ascii c in (48 <=? n)%N && (n <=? 57)%N.

Definition digit_value (c : ascii) : N := (N_of_ascii c - 48)%N.

Definition hex_value (c : ascii) : option N :=
  let n := N_of_ascii c in
  if (48 <=? n)%N && (n <=? 57)%N then Some (n - 48)%N
  else if (97 <=? n)%N && (n <=? 102)%N then Some (n - 97 + 10)%N
  else if (65 <=? n)%N && (n <=? 70)%N then Some (n - 65 + 10)%N
  else None.

(** [strings.Split] on a one-character separator. *)
Fixpoint strings_Split (sep : ascii) (s : string) : list string :=
  match s with
  | EmptyString => [EmptyString]
  | String ch rest =>
      if Ascii.eqb ch sep then EmptyString :: strings_Split sep rest
      else
        match strings_Split sep rest with
        | [] => [String ch EmptyString]
        | first :: others => String ch first :: others
        end
  end.

(** [dtoi]: the decimal number at the start of [s], the number of characters
    read, and whether a number below [big] was read. *)
Definition big : N := 16777215%N.

Fixpoint dtoi_from (s : string) (n : N) (i : nat) : N * nat * bool :=
  match s with
  | String c rest =>
      if is_digit c then
        let n := (n * 10 + digit_value c)%N in
        if (big <=? n)%N then (big, i, false) else dtoi_from rest n (S i)
      else if decide (i = 0%nat) then (0%N, 0%nat, false) else (n, i, true)
  | EmptyString => if decide (i = 0%nat) then (0%N, 0%nat, false) else (n, i, true)
  end.

Definition dtoi (s : string) : N * nat * bool := dtoi_from s 0%N 0%nat.

(** One octet of a dotted address: digits only, at least one, no leading
    zero, at most 255. *)
Fixpoint octet_from (s : string) (val : N) (digLen : nat) : option N :=
  match s with
  | EmptyString => if decide (digLen = 0%nat) then None else Some val
  | String c rest =>
      if is_digit c then
        if bool_decide (digLen = 1%nat) && (val =? 0)%N then None
        else
          let val := (val * 10 + digit_value c)%N in
          if (255 <? val)%N then None else octet_from rest val (S digLen)
      else None
  end.

(** [parseIPv4]: four octets separated by dots. *)
Definition parseIPv4 (s : string) : option IP :=
  match strings_Split "."%char s with
  | [a; b; c; d] =>
      match octet_from a 0%N 0%nat, octet_from b 0%N 0%nat,
            octet_from c 0%N 0%nat, octet_from d 0%N 0%nat with
      | Some a, Some b, Some c, Some d => Some [a; b; c; d]
      | _, _, _, _ => None
      end
  | _ => None
  end.

(** A group of hexadecimal digits at the start of [s]: the number of digits,
    the value and the rest of the string; no group of more than four
    digits. *)
Fixpoint hex_group (s : string) (off : nat) (acc : N) : option (nat * N * string) :=
  match s with
  | EmptyString => Some (off, acc, s)
  | String c rest =>
      match hex_value c with
      | Some d =>
          let acc := (acc * 16 + d)%N in
          if (3 <? off)%nat then None
          else if (65535 <? acc)%N then None
          else hex_group rest (S off) acc
      | None => Some (off, acc, s)
      end
  end.

Definition starts_with (c : ascii) (s : string) : bool :=
  match s with
  | String c' _ => Ascii.eqb c c'
  | EmptyString => false
  end.

Definition tail_of (s : string) : string :=
  match s with
  | String _ rest => rest
  | EmptyString => EmptyString
  end.

(** The loop of [parseIPv6] over the groups: [ip] holds the bytes read so
    far, [ellipsis] the position of the double colon when one was seen.  It
    ends with the bytes, the position of the double colon and the text left
    over. *)
Fixpoint parseIPv6_groups (fuel : nat) (s : string) (ip : list N) (ellipsis : option nat)
    : option (list N * option nat * string) :=
  match fuel with
  | O => Some (ip, ellipsis, s)
  | S fuel =>
      if (16 <=? length ip)%nat then Some (ip, ellipsis, s)
      else
        match hex_group s 0%nat 0%N with
        | None => None
        | Some (off, acc, rest) =>
            if decide (off = 0%nat) then None
            else if starts_with "."%char rest then
              if bool_decide (ellipsis = None) && negb (length ip =? 12)%nat then None
              else if (16 <? length ip + 4)%nat then None
              else
                match parseIPv4 s with
                | None => None
                | Some v4 => Some (ip ++ v4, ellipsis, EmptyString)
                end
            else
              let ip := ip ++ [(acc / 256)%N; (acc mod 256)%N] in
              match rest with
              | EmptyString => Some (ip, ellipsis, EmptyString)
              | String c rest' =>
                  if negb (Ascii.eqb c ":"%char) then None
                  else
                    match rest' with
                    | EmptyString => None
                    | String c' rest'' =>
                        if Ascii.eqb c' ":"%char then
                          match ellipsis with
                          | Some _ => None
                          | None =>
                              match rest'' with
                              | EmptyString => Some (ip, Some (length ip), EmptyString)
                              | _ => parseIPv6_groups fuel rest'' ip (Some (length ip))
                              end
                          end
                        else parseIPv6_groups fuel rest' ip ellipsis
                    end
              end
        end
  end.

(** [parseIPv6], for an address without zone. *)
Definition parseIPv6 (s : string) : option IP :=
  let leading := starts_with ":"%char s && starts_with ":"%char (tail_of s) in
  let ellipsis := if leading then Some 0%nat else None in
  let s := if leading then tail_of (tail_of s) else s in
  if leading && bool_decide (s = EmptyString) then Some (replicate 16 0%N)
  else
    match parseIPv6_groups 9 s [] ellipsis with
    | None => None
    | Some (ip, ellipsis, rest) =>
        if negb (bool_decide (rest = EmptyString)) then None
        else if (length ip <? 16)%nat then
          match ellipsis with
          | None => None
          | Some e => Some (take e ip ++ replicate (16 - length ip) 0%N ++ drop e ip)
          end
        else
          match ellipsis with
          | Some _ => None
          | None => Some ip
          end
    end.

Fixpoint first_of (chars : list ascii) (s : string) : option ascii :=
  match s with
  | EmptyString => None
  | String c rest => if bool_decide (c ∈ chars) then Some c else first_of chars rest
  end.

Definition v4InV6Prefix : list N := [0; 0; 0; 0; 0; 0; 0; 0; 0; 0; 255; 255]%N.

(** [netip.ParseAddr] followed by [As16], for an address without zone: the
    16-byte form and the bit length of the address. *)
Definition ParseAddr (s : string) : option (IP * nat) :=
  match first_of ["."; ":"; "%"]%char s with
  | Some "."%char =>
      match parseIPv4 s with
      | Some v4 => Some (v4InV6Prefix ++ v4, 32%nat)
      | None => None
      end
  | Some ":"%char =>
      if bool_decide ("%"%char ∈ list_ascii_of_string s) then None
      else
        match parseIPv6 s with
        | Some v6 => Some (v6, 128%nat)
        | None => None
        end
  | _ => None
  end.

(** [IP.To4]: the 4-byte form of an IPv4 address, nil otherwise. *)
Definition To4 (ip : IP) : IP :=
  if decide (length ip = 4%nat) then ip
  else if decide (length ip = 16%nat) then
    if decide (take 12 ip = v4InV6Prefix) then drop 12 ip else []
  else [].

(** [CIDRMask ones bits]. *)
Definition mask_byte (ones : nat) (k : nat) : N :=
  let n := (ones - 8 * k)%nat in
  if (8 <=? n)%nat then 255%N else (256 - 2 ^ N.of_nat (8 - n))%N.

Definition CIDRMask (ones bits : nat) : list N :=
  map (mask_byte ones) (seq 0 (bits / 8)).

(** [IP.Mask], for a mask of the length of the 4-byte or 16-byte form. *)
Definition IP_Mask (ip : IP) (mask : list N) : IP :=
  let ip := if decide (length mask = 4%nat) then To4 ip else ip in
  zip_with N.land ip mask.

Definition string_before (sep : ascii) (s : string) : string :=
  match strings_Split sep s with
  | first :: _ => first
  | [] => EmptyString
  end.

Fixpoint string_after (sep : ascii) (s : string) : option string :=
  match s with
  | EmptyString => None
  | String c rest => if Ascii.eqb c sep then Some rest else string_after sep rest
  end.

(** Go's [net.ParseCIDR]: the address before the slash in 16-byte form, and
    the network it lies in. *)
Definition net_ParseCIDR (s : string) : result (IP * IPNet) :=
  match string_after "/"%char s with
  | None => Err (ErrorParse s)
  | Some mask =>
      let addr := string_before "/"%char s in
      match ParseAddr addr with
      | None => Err (ErrorParse s)
      | Some (addr16, bitLen) =>
          match dtoi mask with
          | (n, i, ok) =>
              if negb ok || negb (i =? String.length mask)%nat
                 || (N.of_nat bitLen <? n)%N
              then Err (ErrorParse s)
              else
                let m := CIDRMask (N.to_nat n) bitLen in
                Ok (addr16, mkIPNet (IP_Mask addr16 m) m)
          end
      end
  end.

(** Modelled from the spec: [ParseCIDR] of package lib/net, which is not
    among the sources.  It wraps Go's [net.ParseCIDR]: the first result is
    the address written before the slash, which for a pod CIDR such as
    10.1.2.0/24 is the network address, in its 4-byte form when it is an
    IPv4 address. *)
Definition ParseCIDR (c : string) : result (IP * IPNet) :=
  match net_ParseCIDR c with
  | Err e => Err e
  | Ok (netIP, netIPNet) =>
      let ip4 := To4 netIP in
      if decide (ip4 ≠ []) then Ok (ip4, netIPNet) else Ok (netIP, netIPNet)
  end.

(** Decimal text of a byte. *)
Definition digit_char (d : N) : ascii := ascii_of_N (48 + d).

Definition ubtoa (b : N) : string :=
  if (b <? 10)%N then String (digit_char b) EmptyString
  else if (b <? 100)%N then
    String (digit_char (b / 10)) (String (digit_char (b mod 10)) EmptyString)
  else
    String (digit_char (b / 100))
      (String (digit_char (b / 10 mod 10)) (String (digit_char (b mod 10)) EmptyString)).

(** [IP.String] on the slices this file prints: the dotted form of a 4-byte
    address, and the text Go gives a nil address.  Other lengths, which
    [getTunIp] never prints, are shown as a question mark only. *)
Definition IP_String (ip : IP) : string :=
  match ip with
  | [] => "<nil>"
  | [a; b; c; d] => ubtoa a ++ "." ++ ubtoa b ++ "." ++ ubtoa c ++ "." ++ ubtoa d
  | _ => "?"
  end.

(** ** Operations as computations

    An operation runs against the state [W] of the cluster behind the
    clients.  It ends normally or panics, leaves a new state, and emits its
    events in order. *)

Inductive outcome (A : Type) :=
| Normal (a : A)
| Panicked (reason : string).
Arguments Normal {A} a.
Arguments Panicked {A} reason.

Definition M (W A : Type) : Type := W -> outcome A * W * list Event.

Definition ret {W A} (a : A) : M W A := fun w => (Normal a, w, []).

Definition bind {W A B} (m : M W A) (k : A -> M W B) : M W B :=
  fun w =>
    match m w with
    | (Normal a, w1, t1) =>
        match k a w1 with
        | (o, w2, t2) => (o, w2, t1 ++ t2)
        end
    | (Panicked p, w1, t1) => (Panicked p, w1, t1)
    end.

Notation "x <- m ;; k" := (bind m (fun x => k))
  (at level 100, m at next level, right associativity).
Notation "m ;;; k" := (bind m (fun _ => k))
  (at level 100, right associativity).

Definition log {W} (lvl : Level) (msg : string) (args : list LogArg) : M W unit :=
  fun w => (Normal tt, w, [EvLog lvl msg args]).

Definition panic {W A} (reason : string) : M W A :=
  fun w => (Panicked reason, w, []).

(** [for _, x := range xs { body }] *)
Fixpoint for_range {W A} (xs : list A) (body : A -> M W unit) : M W unit :=
  match xs with
  | [] => ret tt
  | x :: rest => body x ;;; for_range rest body
  end.

(** The three components of a run. *)
Definition outcome_of {W A} (r : outcome A * W * list Event) : outcome A := r.1.1.
Definition world_of {W A} (r : outcome A * W * list Event) : W := r.1.2.
Definition events_of {W A} (r : outcome A * W * list Event) : list Event := r.2.

Section Backend.

Context {W : Type}.

(** ** Resource clients (resources.K8sResourceClient) *)

Record K8sResourceClient := mkResourceClient {
  rcCreate : KVPair -> W -> result KVPair * W;
  rcUpdate : KVPair -> W -> result KVPair * W;
  rcDeleteKVP : KVPair -> W -> result KVPair * W;
  rcDelete : Key -> string -> option string -> W -> result KVPair * W;
  rcGet : Key -> string -> W -> result KVPair * W;
  rcList : ListInterface -> string -> W -> result KVPairList * W;
  rcWatch : ListInterface -> WatchOptions -> W -> result WatchInterface * W;
}.

(** Invoking a method of a resource client: the method runs on the cluster
    state and the call is recorded with its answer. *)
Definition invoke {A} (call : HandlerCall) (answer : result A -> HandlerAnswer)
    (method : W -> result A * W) : M W (result A) :=
  fun w =>
    match method w with
    | (r, w') => (Normal r, w', [EvCall call (answer r)])
    end.

(** The part of [kubernetes.Clientset] the adapter calls directly. *)
Record Clientset := mkClientset {
  clientsetConfig : RestConfig;
  CoreV1NodesList : W -> (K8sError + list K8sNode) * W;
  CoreV1NodesGet : string -> W -> (K8sError + K8sNode) * W;
}.

Definition nodes_call {A} (call : NodesCall) (method : W -> (K8sError + A) * W)
    : M W (K8sError + A) :=
  fun w =>
    match method w with
    | (r, w') => (Normal r, w', [EvNodes call])
    end.

(** Arguments of the constructors of package resources. *)
Inductive ClientArgs :=
| WithCRD (cs : Clientset) (crd : RESTClient)
| WithClientset (cs : Clientset)
| WithPolicyClient (p : PolicyV1alpha1Client)
| WithPodCIDR (cs : Clientset) (usePodCIDR : bool).

(** The collaborators outside this file: the Kubernetes client libraries,
    the per-kind resource clients of package resources and the error
    translation. *)
Record External := mkExternal {
  NewClientConfigFromBytes : string -> K8sError + ClientConfig;
  ClientConfigOf : ClientConfig -> K8sError + RestConfig;
  NewNonInteractiveDeferredLoadingClientConfig :
    ClientConfigLoadingRules -> ConfigOverrides -> K8sError + RestConfig;
  kubernetes_NewForConfig : RestConfig -> K8sError + Clientset;
  rest_RESTClientFor : RestConfig -> K8sError + RESTClient;
  adminpolicyclient_NewForConfig : RestConfig -> K8sError + PolicyV1alpha1Client;
  K8sErrorToCalico : K8sError -> Identifier -> Error;
  resources_New : string -> ClientArgs -> K8sResourceClient;
}.

(** ** The adapter *)

Record KubeClient := mkKubeClient {
  ClientSet : Clientset;
  crdClientV1 : RESTClient;
  k8sAdminPolicyClient : PolicyV1alpha1Client;
  disableNodePoll : bool;
  clientsByResourceKind : gmap string K8sResourceClient;
  clientsByKeyType : gmap (option GoType) K8sResourceClient;
  clientsByListType : gmap (option GoType) K8sResourceClient;
}.

(** [registerResourceClient]: the maps of [c] are updated in place; here the
    updated adapter is returned. *)
Definition registerResourceClient (c : KubeClient) (keyType listType : option GoType)
    (resourceKind : string) (client : K8sResourceClient) : KubeClient :=
  if decide (keyType = resourceKeyType) then
    mkKubeClient (ClientSet c) (crdClientV1 c) (k8sAdminPolicyClient c) (disableNodePoll c)
      (<[resourceKind := client]> (clientsByResourceKind c))
      (clientsByKeyType c)
      (clientsByListType c)
  else
    mkKubeClient (ClientSet c) (crdClientV1 c) (k8sAdminPolicyClient c) (disableNodePoll c)
      (clientsByResourceKind c)
      (<[keyType := client]> (clientsByKeyType c))
      (<[listType := client]> (clientsByListType c)).

Definition GetResourceClientFromResourceKind (c : KubeClient) (kind : string)
    : option K8sResourceClient :=
  clientsByResourceKind c !! kind.

(** [getResourceClientFromKey]: a nil client is [None]. *)
Definition getResourceClientFromKey (c : KubeClient) (key : Key)
    : option K8sResourceClient :=
  let kt := TypeOfKey key in
  if decide (kt = resourceKeyType) then
    match key with
    | ResourceKey Kind _ _ => clientsByResourceKind c !! Kind
    | _ => None
    end
  else clientsByKeyType c !! kt.

Definition getResourceClientFromList (c : KubeClient) (list : ListInterface)
    : option K8sResourceClient :=
  let lt := TypeOfList list in
  if decide (lt = resourceListType) then
    match list with
    | ResourceListOptions Kind _ _ => clientsByResourceKind c !! Kind
    | _ => None
    end
  else clientsByListType c !! lt.

(** ** Dispatch layer *)

(** [Create] an entry in the datastore. *)
Definition Create (c : KubeClient) (d : KVPair) : M W (result KVPair) :=
  log Debug "Performing 'Create' for %+v" [AKVPair d] ;;;
  match getResourceClientFromKey c (KVKey d) with
  | None =>
      log Debug "Attempt to 'Create' using kubernetes backend is not supported." [] ;;;
      ret (Err (ErrorOperationNotSupported (IdKey (KVKey d)) "Create"))
  | Some client => invoke (HCreate d) AnsKVPair (rcCreate client d)
  end.

(** [Update] an existing entry in the datastore. *)
Definition Update (c : KubeClient) (d : KVPair) : M W (result KVPair) :=
  log Debug "Performing 'Update' for %+v" [AKVPair d] ;;;
  match getResourceClientFromKey c (KVKey d) with
  | None =>
      log Debug "Attempt to 'Update' using kubernetes backend is not supported." [] ;;;
      ret (Err (ErrorOperationNotSupported (IdKey (KVKey d)) "Update"))
  | Some client => invoke (HUpdate d) AnsKVPair (rcUpdate client d)
  end.

(** [Apply]: set an entry whether or not it exists. *)
Definition Apply (c : KubeClient) (kvp : KVPair) : M W (result KVPair) :=
  let logContext := [AField "Key" (AKey (KVKey kvp)); AField "Value" (AValue (KVValue kvp))] in
  log Debug "Apply Kubernetes resource" logContext ;;;
  r <- Create c (mkKVPair (KVKey kvp) (KVValue kvp) "") ;;
  match r with
  | Err err =>
      if negb (isErrorResourceAlreadyExists err) then
        log Debug "Error applying resource (using Create)" logContext ;;;
        ret (Err err)
      else
        r' <- Update c kvp ;;
        match r' with
        | Err err' =>
            log Debug "Error applying resource (using Update)" logContext ;;;
            ret (Err err')
        | Ok updated => ret (Ok updated)
        end
  | Ok updated => ret (Ok updated)
  end.

(** [DeleteKVP]: delete an entry, given the whole pair. *)
Definition DeleteKVP (c : KubeClient) (kvp : KVPair) : M W (result KVPair) :=
  log Debug "Performing 'DeleteKVP' for %+v" [AKey (KVKey kvp)] ;;;
  match getResourceClientFromKey c (KVKey kvp) with
  | None =>
      log Debug "Attempt to 'DeleteKVP' using kubernetes backend is not supported." [] ;;;
      ret (Err (ErrorOperationNotSupported (IdKey (KVKey kvp)) "Delete"))
  | Some client => invoke (HDeleteKVP kvp) AnsKVPair (rcDeleteKVP client kvp)
  end.

(** [Delete] an entry by key. *)
Definition Delete (c : KubeClient) (k : Key) (revision : string) : M W (result KVPair) :=
  log Debug "Performing 'Delete' for %+v" [AKey k] ;;;
  match getResourceClientFromKey c k with
  | None =>
      log Debug "Attempt to 'Delete' using kubernetes backend is not supported." [] ;;;
      ret (Err (ErrorOperationNotSupported (IdKey k) "Delete"))
  | Some client => invoke (HDelete k revision None) AnsKVPair (rcDelete client k revision None)
  end.

(** [Get] an entry. *)
Definition Get (c : KubeClient) (k : Key) (revision : string) : M W (result KVPair) :=
  log Debug "Performing 'Get' for %+v %v" [AKey k; AString revision] ;;;
  match getResourceClientFromKey c k with
  | None =>
      log Debug "Attempt to 'Get' using kubernetes backend is not supported." [] ;;;
      ret (Err (ErrorOperationNotSupported (IdKey k) "Get"))
  | Some client => invoke (HGet k revision) AnsKVPair (rcGet client k revision)
  end.

(** [List] entries. *)
Definition List (c : KubeClient) (l : ListInterface) (revision : string)
    : M W (result KVPairList) :=
  log Debug "Performing 'List' for %+v %v" [AList l; AType (TypeOfList l)] ;;;
  match getResourceClientFromList c l with
  | None =>
      log Info "Attempt to 'List' using kubernetes backend is not supported." [] ;;;
      ret (Err (ErrorOperationNotSupported (IdList l) "List"))
  | Some client => invoke (HList l revision) AnsList (rcList client l revision)
  end.

(** [Watch] starts a watch on a resource type. *)
Definition Watch (c : KubeClient) (l : ListInterface) (options : WatchOptions)
    : M W (result WatchInterface) :=
  log Debug "Performing 'Watch' for %+v %v" [AList l; AType (TypeOfList l)] ;;;
  match getResourceClientFromList c l with
  | None =>
      log Debug "Attempt to 'Watch' using kubernetes backend is not supported." [] ;;;
      ret (Err (ErrorOperationNotSupported (IdList l) "Watch"))
  | Some client => invoke (HWatch l options) AnsWatch (rcWatch client l options)
  end.

(** [EnsureInitialized] and [Close] do nothing. *)
Definition EnsureInitialized (c : KubeClient) : M W (option Error) := ret None.

Definition Close (c : KubeClient) : M W (option Error) :=
  log Debug "Closing client - NOOP" [] ;;;
  ret None.

Definition getReadyStatus (c : KubeClient) (k : ReadyFlagKeyStruct) (revision : string)
    : M W (result KVPair) :=
  ret (Ok (mkKVPair (KeyOfReadyFlagKey k) (VBool true) "")).

(** ** Client factory *)

(** [os.PathListSeparator] and [filepath.SplitList], as on Unix. *)
Definition ListSeparator : ascii := ":"%char.

Definition filepath_SplitList (path : string) : list string :=
  if decide (path = "") then [] else strings_Split ListSeparator path.

(** The loop of [deduplicate], from the state it has reached: the paths
    encountered so far and the slice built so far. *)
Fixpoint deduplicate_from (s : list string) (encountered : gset string)
    (ret : list string) : list string :=
  match s with
  | [] => ret
  | si :: rest =>
      if decide (si ∈ encountered) then deduplicate_from rest encountered ret
      else deduplicate_from rest ({[si]} ∪ encountered) (ret ++ [si])
  end.

(** [deduplicate] removes any duplicated values, keeping the order. *)
Definition deduplicate (s : list string) : list string :=
  deduplicate_from s ∅ [].

(** [fillLoadingRulesFromKubeConfigSpec]: the loading rules are updated in
    place; here the updated rules are returned. *)
Definition fillLoadingRulesFromKubeConfigSpec (loadingRules : ClientConfigLoadingRules)
    (kubeConfig : string) : ClientConfigLoadingRules :=
  let fileList := filepath_SplitList kubeConfig in
  if decide (1 < length fileList)%nat then
    mkLoadingRules (ExplicitPath loadingRules) (deduplicate fileList) true
  else
    mkLoadingRules kubeConfig (Precedence loadingRules) (WarnIfAllMissing loadingRules).

(** The zero values of the clientcmd structs. *)
Definition emptyConfigOverrides : ConfigOverrides :=
  mkConfigOverrides "" "" "" false "" "" "".

Definition emptyLoadingRules : ClientConfigLoadingRules :=
  mkLoadingRules "" [] false.

(** Assignment through the pointers of [overridesMap]. *)
Inductive OverrideVariable :=
| VarCurrentContext
| VarServer
| VarClientCertificate
| VarClientKey
| VarCertificateAuthority
| VarToken.

Definition assign (variable : OverrideVariable) (value : string) (o : ConfigOverrides)
    : ConfigOverrides :=
  match variable with
  | VarCurrentContext =>
      mkConfigOverrides value (ClusterInfo_Server o) (ClusterInfo_CertificateAuthority o)
        (ClusterInfo_InsecureSkipTLSVerify o) (AuthInfo_ClientCertificate o)
        (AuthInfo_ClientKey o) (AuthInfo_Token o)
  | VarServer =>
      mkConfigOverrides (CurrentContext o) value (ClusterInfo_CertificateAuthority o)
        (ClusterInfo_InsecureSkipTLSVerify o) (AuthInfo_ClientCertificate o)
        (AuthInfo_ClientKey o) (AuthInfo_Token o)
  | VarClientCertificate =>
      mkConfigOverrides (CurrentContext o) (ClusterInfo_Server o)
        (ClusterInfo_CertificateAuthority o) (ClusterInfo_InsecureSkipTLSVerify o)
        value (AuthInfo_ClientKey o) (AuthInfo_Token o)
  | VarClientKey =>
      mkConfigOverrides (CurrentContext o) (ClusterInfo_Server o)
        (ClusterInfo_CertificateAuthority o) (ClusterInfo_InsecureSkipTLSVerify o)
        (AuthInfo_ClientCertificate o) value (AuthInfo_Token o)
  | VarCertificateAuthority =>
      mkConfigOverrides (CurrentContext o) (ClusterInfo_Server o) value
        (ClusterInfo_InsecureSkipTLSVerify o) (AuthInfo_ClientCertificate o)
        (AuthInfo_ClientKey o) (AuthInfo_Token o)
  | VarToken =>
      mkConfigOverrides (CurrentContext o) (ClusterInfo_Server o)
        (ClusterInfo_CertificateAuthority o) (ClusterInfo_InsecureSkipTLSVerify o)
        (AuthInfo_ClientCertificate o) (AuthInfo_ClientKey o) value
  end.

Definition setInsecureSkipTLSVerify (b : bool) (o : ConfigOverrides) : ConfigOverrides :=
  mkConfigOverrides (CurrentContext o) (ClusterInfo_Server o)
    (ClusterInfo_CertificateAuthority o) b (AuthInfo_ClientCertificate o)
    (AuthInfo_ClientKey o) (AuthInfo_Token o).

Definition overridesMap (ca : CalicoAPIConfigSpec) : list (OverrideVariable * string) :=
  [ (VarCurrentContext, K8sCurrentContext ca);
    (VarServer, K8sAPIEndpoint ca);
    (VarClientCertificate, K8sCertFile ca);
    (VarClientKey, K8sKeyFile ca);
    (VarCertificateAuthority, K8sCAFile ca);
    (VarToken, K8sAPIToken ca) ].

(** The loading rules [CreateKubernetesClientset] builds. *)
Definition loadingRulesOf (ca : CalicoAPIConfigSpec) : ClientConfigLoadingRules :=
  if decide (Kubeconfig ca ≠ "") then
    fillLoadingRulesFromKubeConfigSpec emptyLoadingRules (Kubeconfig ca)
  else emptyLoadingRules.

(** The overrides [CreateKubernetesClientset] builds: the loop over
    [overridesMap], then the skip-verify flag. *)
Definition configOverridesOf (ca : CalicoAPIConfigSpec) : ConfigOverrides :=
  let configOverrides :=
    fold_left
      (fun o (override : OverrideVariable * string) =>
         if decide (override.2 ≠ "") then assign override.1 override.2 o else o)
      (overridesMap ca) emptyConfigOverrides in
  if K8sInsecureSkipTLSVerify ca then setInsecureSkipTLSVerify true configOverrides
  else configOverrides.

(** Field updates of [rest.Config]. *)
Definition withContentTypes (accept contentType : string) (cfg : RestConfig) : RestConfig :=
  mkRestConfig (Host cfg) (APIPath cfg) accept contentType (GroupVersion cfg)
    (NegotiatedSerializer cfg) (BearerToken cfg) (TLSInsecure cfg) (TLSCertFile cfg)
    (TLSKeyFile cfg) (TLSCAFile cfg) (QPS cfg) (Burst cfg).

Definition withQPS (qps : Q) (cfg : RestConfig) : RestConfig :=
  mkRestConfig (Host cfg) (APIPath cfg) (AcceptContentTypes cfg) (ContentType cfg)
    (GroupVersion cfg) (NegotiatedSerializer cfg) (BearerToken cfg) (TLSInsecure cfg)
    (TLSCertFile cfg) (TLSKeyFile cfg) (TLSCAFile cfg) qps (Burst cfg).

Definition withBurst (burst : Z) (cfg : RestConfig) : RestConfig :=
  mkRestConfig (Host cfg) (APIPath cfg) (AcceptContentTypes cfg) (ContentType cfg)
    (GroupVersion cfg) (NegotiatedSerializer cfg) (BearerToken cfg) (TLSInsecure cfg)
    (TLSCertFile cfg) (TLSKeyFile cfg) (TLSCAFile cfg) (QPS cfg) burst.

Definition forCRD (cfg : RestConfig) : RestConfig :=
  mkRestConfig (Host cfg) "/apis" (AcceptContentTypes cfg) ContentTypeJSON
    (Some ("crd.projectcalico.org", "v1")) "WithoutConversionCodecFactory"
    (BearerToken cfg) (TLSInsecure cfg) (TLSCertFile cfg) (TLSKeyFile cfg)
    (TLSCAFile cfg) (QPS cfg) (Burst cfg).

(** [CreateKubernetesClientset]: the configuration is loaded from the inline
    kubeconfig when there is one, and otherwise through the loading rules
    and the overrides. *)
Definition CreateKubernetesClientset (ext : External) (ca : CalicoAPIConfigSpec)
    : result (RestConfig * Clientset) :=
  let loadingRules := loadingRulesOf ca in
  let configOverrides := configOverridesOf ca in
  let loaded : K8sError + RestConfig :=
    if decide (KubeconfigInline ca ≠ "") then
      match NewClientConfigFromBytes ext (KubeconfigInline ca) with
      | inl err => inl err
      | inr clientConfig => ClientConfigOf ext clientConfig
      end
    else NewNonInteractiveDeferredLoadingClientConfig ext loadingRules configOverrides in
  match loaded with
  | inl err => Err (K8sErrorToCalico ext err IdNil)
  | inr config =>
      let config :=
        withContentTypes (ContentTypeProtobuf ++ "," ++ ContentTypeJSON)
          ContentTypeProtobuf config in
      let config :=
        if negb (Qeq_bool (K8sClientQPS ca) 0) then withQPS (K8sClientQPS ca) config
        else config in
      let config := withBurst 100 config in
      match kubernetes_NewForConfig ext config with
      | inl err => Err (K8sErrorToCalico ext err IdNil)
      | inr cs => Ok (config, cs)
      end
  end.

Definition buildK8SAdminPolicyClient (ext : External) (cfg : RestConfig)
    : K8sError + PolicyV1alpha1Client :=
  adminpolicyclient_NewForConfig ext cfg.

(** [buildCRDClientV1]; the registration of the Calico resources with the
    scheme, which follows a successful build, changes nothing here. *)
Definition buildCRDClientV1 (ext : External) (cfg : RestConfig) : K8sError + RESTClient :=
  rest_RESTClientFor ext (forCRD cfg).

(** The registrations every adapter gets: the resources addressed by kind. *)
Definition registerKinds (ext : External) (ca : CalicoAPIConfigSpec) (cs : Clientset)
    (crdClientV1 : RESTClient) (k8sAdminPolicyClient : PolicyV1alpha1Client)
    (kubeClient : KubeClient) : KubeClient :=
  let kubeClient :=
    registerResourceClient kubeClient (Some TResourceKey) (Some TResourceListOptions)
      KindIPPool (resources_New ext "NewIPPoolClient" (WithCRD cs crdClientV1)) in
  let kubeClient :=
    registerResourceClient kubeClient (Some TResourceKey) (Some TResourceListOptions)
      KindIPReservation (resources_New ext "NewIPReservationClient" (WithCRD cs crdClientV1)) in
  let kubeClient :=
    registerResourceClient kubeClient (Some TResourceKey) (Some TResourceListOptions)
      KindGlobalNetworkPolicy (resources_New ext "NewGlobalNetworkPolicyClient" (WithCRD cs crdClientV1)) in
  let kubeClient :=
    registerResourceClient kubeClient (Some TResourceKey) (Some TResourceListOptions)
      KindStagedGlobalNetworkPolicy (resources_New ext "NewStagedGlobalNetworkPolicyClient" (WithCRD cs crdClientV1)) in
  let kubeClient :=
    registerResourceClient kubeClient (Some TResourceKey) (Some TResourceListOptions)
      KindKubernetesAdminNetworkPolicy (resources_New ext "NewKubernetesAdminNetworkPolicyClient" (WithPolicyClient k8sAdminPolicyClient)) in
  let kubeClient :=
    registerResourceClient kubeClient (Some TResourceKey) (Some TResourceListOptions)
      KindKubernetesBaselineAdminNetworkPolicy (resources_New ext "NewKubernetesBaselineAdminNetworkPolicyClient" (WithPolicyClient k8sAdminPolicyClient)) in
  let kubeClient :=
    registerResourceClient kubeClient (Some TResourceKey) (Some TResourceListOptions)
      KindGlobalNetworkSet (resources_New ext "NewGlobalNetworkSetClient" (WithCRD cs crdClientV1)) in
  let kubeClient :=
    registerResourceClient kubeClient (Some TResourceKey) (Some TResourceListOptions)
      KindNetworkPolicy (resources_New ext "NewNetworkPolicyClient" (WithCRD cs crdClientV1)) in
  let kubeClient :=
    registerResourceClient kubeClient (Some TResourceKey) (Some TResourceListOptions)
      KindStagedNetworkPolicy (resources_New ext "NewStagedNetworkPolicyClient" (WithCRD cs crdClientV1)) in
  let kubeClient :=
    registerResourceClient kubeClient (Some TResourceKey) (Some TResourceListOptions)
      KindKubernetesNetworkPolicy (resources_New ext "NewKubernetesNetworkPolicyClient" (WithClientset cs)) in
  let kubeClient :=
    registerResourceClient kubeClient (Some TResourceKey) (Some TResourceListOptions)
      KindStagedKubernetesNetworkPolicy (resources_New ext "NewStagedKubernetesNetworkPolicyClient" (WithCRD cs crdClientV1)) in
  let kubeClient :=
    registerResourceClient kubeClient (Some TResourceKey) (Some TResourceListOptions)
      KindKubernetesEndpointSlice (resources_New ext "NewKubernetesEndpointSliceClient" (WithClientset cs)) in
  let kubeClient :=
    registerResourceClient kubeClient (Some TResourceKey) (Some TResourceListOptions)
      KindNetworkSet (resources_New ext "NewNetworkSetClient" (WithCRD cs crdClientV1)) in
  let kubeClient :=
    registerResourceClient kubeClient (Some TResourceKey) (Some TResourceListOptions)
      KindTier (resources_New ext "NewTierClient" (WithCRD cs crdClientV1)) in
  let kubeClient :=
    registerResourceClient kubeClient (Some TResourceKey) (Some TResourceListOptions)
      KindBGPPeer (resources_New ext "NewBGPPeerClient" (WithCRD cs crdClientV1)) in
  let kubeClient :=
    registerResourceClient kubeClient (Some TResourceKey) (Some TResourceListOptions)
      KindBGPConfiguration (resources_New ext "NewBGPConfigClient" (WithCRD cs crdClientV1)) in
  let kubeClient :=
    registerResourceClient kubeClient (Some TResourceKey) (Some TResourceListOptions)
      KindFelixConfiguration (resources_New ext "NewFelixConfigClient" (WithCRD cs crdClientV1)) in
  let kubeClient :=
    registerResourceClient kubeClient (Some TResourceKey) (Some TResourceListOptions)
      KindClusterInformation (resources_New ext "NewClusterInfoClient" (WithCRD cs crdClientV1)) in
  let kubeClient :=
    registerResourceClient kubeClient (Some TResourceKey) (Some TResourceListOptions)
      KindNode (resources_New ext "NewNodeClient" (WithPodCIDR cs (K8sUsePodCIDR ca))) in
  let kubeClient :=
    registerResourceClient kubeClient (Some TResourceKey) (Some TResourceListOptions)
      KindProfile (resources_New ext "NewProfileClient" (WithClientset cs)) in
  let kubeClient :=
    registerResourceClient kubeClient (Some TResourceKey) (Some TResourceListOptions)
      KindHostEndpoint (resources_New ext "NewHostEndpointClient" (WithCRD cs crdClientV1)) in
  let kubeClient :=
    registerResourceClient kubeClient (Some TResourceKey) (Some TResourceListOptions)
      KindWorkloadEndpoint (resources_New ext "NewWorkloadEndpointClient" (WithClientset cs)) in
  let kubeClient :=
    registerResourceClient kubeClient (Some TResourceKey) (Some TResourceListOptions)
      KindKubeControllersConfiguration (resources_New ext "NewKubeControllersConfigClient" (WithCRD cs crdClientV1)) in
  let kubeClient :=
    registerResourceClient kubeClient (Some TResourceKey) (Some TResourceListOptions)
      KindCalicoNodeStatus (resources_New ext "NewCalicoNodeStatusClient" (WithCRD cs crdClientV1)) in
  let kubeClient :=
    registerResourceClient kubeClient (Some TResourceKey) (Some TResourceListOptions)
      KindKubernetesService (resources_New ext "NewServiceClient" (WithClientset cs)) in
  let kubeClient :=
    registerResourceClient kubeClient (Some TResourceKey) (Some TResourceListOptions)
      KindIPAMConfig (resources_New ext "NewIPAMConfigClient" (WithCRD cs crdClientV1)) in
  let kubeClient :=
    registerResourceClient kubeClient (Some TResourceKey) (Some TResourceListOptions)
      KindBlockAffinity (resources_New ext "NewBlockAffinityClient" (WithCRD cs crdClientV1)) in
  let kubeClient :=
    registerResourceClient kubeClient (Some TResourceKey) (Some TResourceListOptions)
      KindBGPFilter (resources_New ext "NewBGPFilterClient" (WithCRD cs crdClientV1)) in
  kubeClient.

(** The registrations under [if !ca.K8sUsePodCIDR]: Calico IPAM is in use and
    its resources are backed by CRDs.  (The debug line logged there is not
    kept: construction has no events.) *)
Definition registerIPAM (ext : External) (cs : Clientset) (crdClientV1 : RESTClient)
    (kubeClient : KubeClient) : KubeClient :=
  let kubeClient :=
    registerResourceClient kubeClient (Some TBlockAffinityKey) (Some TBlockAffinityListOptions)
      KindBlockAffinity (resources_New ext "NewBlockAffinityClient" (WithCRD cs crdClientV1)) in
  let kubeClient :=
    registerResourceClient kubeClient (Some TBlockKey) (Some TBlockListOptions)
      KindIPAMBlock (resources_New ext "NewIPAMBlockClient" (WithCRD cs crdClientV1)) in
  let kubeClient :=
    registerResourceClient kubeClient (Some TIPAMHandleKey) (Some TIPAMHandleListOptions)
      KindIPAMHandle (resources_New ext "NewIPAMHandleClient" (WithCRD cs crdClientV1)) in
  let kubeClient :=
    registerResourceClient kubeClient (Some TIPAMConfigKey) None
      KindIPAMConfig (resources_New ext "NewIPAMConfigClient" (WithCRD cs crdClientV1)) in
  kubeClient.

Definition NewKubeClient (ext : External) (ca : CalicoAPIConfigSpec) : result KubeClient :=
  match CreateKubernetesClientset ext ca with
  | Err err => Err err
  | Ok (config, cs) =>
      match buildCRDClientV1 ext config with
      | inl err => Err (ErrorWrapped "Failed to build V1 CRD client: %v" err)
      | inr crdClientV1 =>
          match buildK8SAdminPolicyClient ext config with
          | inl err =>
              Err (ErrorWrapped "Failed to build K8S Admin Network Policy client: %v" err)
          | inr k8sAdminPolicyClient =>
              let kubeClient :=
                mkKubeClient cs crdClientV1 k8sAdminPolicyClient (K8sDisableNodePoll ca)
                  ∅ ∅ ∅ in
              let kubeClient :=
                registerKinds ext ca cs crdClientV1 k8sAdminPolicyClient kubeClient in
              let kubeClient :=
                if negb (K8sUsePodCIDR ca) then registerIPAM ext cs crdClientV1 kubeClient
                else kubeClient in
              Ok kubeClient
          end
      end
  end.

(** ** Clean *)

Definition cleanKinds : list string :=
  [ KindBGPConfiguration;
    KindBGPPeer;
    KindClusterInformation;
    KindCalicoNodeStatus;
    KindFelixConfiguration;
    KindGlobalNetworkPolicy;
    KindStagedGlobalNetworkPolicy;
    KindNetworkPolicy;
    KindStagedNetworkPolicy;
    KindStagedKubernetesNetworkPolicy;
    KindTier;
    KindGlobalNetworkSet;
    KindNetworkSet;
    KindIPPool;
    KindIPReservation;
    KindHostEndpoint;
    KindKubeControllersConfiguration;
    KindIPAMConfig;
    KindBlockAffinity;
    KindBGPFilter ].

Definition cleanIPAMLists : list ListInterface :=
  [ BlockListOptions 0;
    BlockAffinityListOptions "" 0;
    BlockAffinityListOptions "" 0;
    IPAMHandleListOptions ].

(** Body of the loop of [Clean] over the entries listed for a kind. *)
Definition cleanEntry (c : KubeClient) (r : KVPair) : M W unit :=
  d <- Delete c (KVKey r) (Revision r) ;;
  match d with
  | Err _ => log Warning "Failed to delete entry from KDD" [AField "Key" (AKey (KVKey r))]
  | Ok _ => ret tt
  end.

(** Body of the loop of [Clean] over the kinds. *)
Definition cleanKind (c : KubeClient) (k : string) : M W unit :=
  let lo := ResourceListOptions k "" "" in
  rs <- List c lo "" ;;
  match rs with
  | Err err => log Warning "Failed to list resources" [AError err; AField "Kind" (AString k)]
  | Ok rs => for_range (KVPairs rs) (cleanEntry c)
  end.

(** Body of the loop of [Clean] over the entries of an IPAM list. *)
Definition cleanIPAMEntry (c : KubeClient) (r : KVPair) : M W unit :=
  d <- DeleteKVP c r ;;
  match d with
  | Err err =>
      log Warning "Failed to delete entry from KDD" [AError err; AField "Key" (AKey (KVKey r))]
  | Ok _ => ret tt
  end.

(** Body of the loop of [Clean] over the IPAM lists. *)
Definition cleanIPAMList (c : KubeClient) (li : ListInterface) : M W unit :=
  rs <- List c li "" ;;
  match rs with
  | Err err => log Warning "Failed to list resources" [AError err; AField "Kind" (AList li)]
  | Ok rs => for_range (KVPairs rs) (cleanIPAMEntry c)
  end.

(** Body of the loop of [Clean] over the nodes: the value is asserted to be
    a node, its BGP configuration is cleared through the pointer, and the
    pair, which holds the same pointer, is written back. *)
Definition cleanNode (c : KubeClient) (nodeKvp : KVPair) : M W unit :=
  match KVValue nodeKvp with
  | VNode node =>
      let node := mkNode (NodeName node) None in
      let nodeKvp := mkKVPair (KVKey nodeKvp) (VNode node) (Revision nodeKvp) in
      u <- Update c nodeKvp ;;
      match u with
      | Err _ =>
          log Warning "Failed to remove Calico config from node"
            [AField "Node" (AString (NodeName node))]
      | Ok _ => ret tt
      end
  | _ => panic "interface conversion: interface {} is not *v3.Node"
  end.

(** The step of [Clean] that lists the nodes and removes the BGP
    configuration from each. *)
Definition cleanNodes (c : KubeClient) : M W unit :=
  nodes <- List c (ResourceListOptions KindNode "" "") "" ;;
  match nodes with
  | Err _ => log Warning "Failed to list Nodes" []
  | Ok nodes => for_range (KVPairs nodes) (cleanNode c)
  end.

(** The step of [Clean] that deletes the global IPAM config. *)
Definition cleanIPAMConfig (c : KubeClient) : M W unit :=
  d <- Delete c IPAMConfigKey "" ;;
  match d with
  | Err err =>
      log Warning "Failed to delete global IPAM Config from KDD"
        [AError err; AField "key" (AString IPAMConfigGlobalName)]
  | Ok _ => ret tt
  end.

(** [Clean] removes Calico-creatable data from the datastore. *)
Definition Clean (c : KubeClient) : M W (option Error) :=
  log Warning "Cleaning KDD of all Calico-creatable data" [] ;;;
  for_range cleanKinds (cleanKind c) ;;;
  for_range cleanIPAMLists (cleanIPAMList c) ;;;
  cleanNodes c ;;;
  cleanIPAMConfig c ;;;
  ret None.

(** ** Host configuration *)

(** [getTunIp]: the pair [(nil, nil)] is [Ok None]. *)
Definition getTunIp (n : K8sNode) : M W (result (option KVPair)) :=
  if decide (PodCIDR n = "") then
    log Warning "Node %s does not have podCIDR for HostConfig" [AString (Name n)] ;;;
    ret (Ok None)
  else
    match ParseCIDR (PodCIDR n) with
    | Err err =>
        log Warning "Invalid podCIDR for HostConfig: %s, %s"
          [AString (Name n); AString (PodCIDR n)] ;;;
        ret (Err err)
    | Ok (ip, _) =>
        let tunIp := To4 ip in
        match tunIp !! 3%nat with
        | None => panic "runtime error: index out of range [3] with length 0"
        | Some b =>
            let tunIp := <[3%nat := ((b + 1) mod 256)%N]> tunIp in
            ret (Ok (Some (mkKVPair (HostConfigKey (Name n) "IpInIpTunnelAddr")
                             (VString (IP_String tunIp)) "")))
        end
    end.

(** The loop of [listHostConfig] over the nodes, from the pairs gathered so
    far. *)
Fixpoint listHostConfig_range (items : list K8sNode) (kvps : list KVPair)
    : M W (list KVPair) :=
  match items with
  | [] => ret kvps
  | node :: rest =>
      r <- getTunIp node ;;
      match r with
      | Ok (Some kvp) => listHostConfig_range rest (kvps ++ [kvp])
      | _ => listHostConfig_range rest kvps
      end
  end.

Definition listHostConfig (ext : External) (c : KubeClient) (l : HostConfigListOptionsStruct)
    (revision : string) : M W (result KVPairList) :=
  let kvps : list KVPair := [] in
  if bool_decide (ListName l ≠ "") && bool_decide (ListName l ≠ "IpInIpTunnelAddr") then
    ret (Ok (mkKVPairList kvps revision))
  else if decide (ListHostname l = "") then
    nodes <- nodes_call NodesList (CoreV1NodesList (ClientSet c)) ;;
    match nodes with
    | inl err => ret (Err (K8sErrorToCalico ext err (IdList (ListOfHostConfigListOptions l))))
    | inr items =>
        kvps <- listHostConfig_range items kvps ;;
        ret (Ok (mkKVPairList kvps revision))
    end
  else
    node <- nodes_call (NodesGet (ListHostname l))
              (CoreV1NodesGet (ClientSet c) (ListHostname l)) ;;
    match node with
    | inl err => ret (Err (K8sErrorToCalico ext err (IdList (ListOfHostConfigListOptions l))))
    | inr node =>
        r <- getTunIp node ;;
        match r with
        | Ok (Some kvp) => ret (Ok (mkKVPairList (kvps ++ [kvp]) revision))
        | _ => ret (Ok (mkKVPairList [] revision))
        end
    end.

End Backend.

Arguments K8sResourceClient W : clear implicits.
Arguments Clientset W : clear implicits.
Arguments ClientArgs W : clear implicits.
Arguments External W : clear implicits.
Arguments KubeClient W : clear implicits.

(** ** Reading the events of a run *)

(** The resource-client methods invoked, in order. *)
Definition handler_calls (t : list Event) : list HandlerCall :=
  omap (fun e => match e with EvCall call _ => Some call | _ => None end) t.

(** The calls made on the clientset, in order. *)
Definition nodes_calls (t : list Event) : list NodesCall :=
  omap (fun e => match e with EvNodes call => Some call | _ => None end) t.

(** The pairs [Create] was entered with, from its first log line. *)
Definition create_attempts (t : list Event) : list KVPair :=
  omap (fun e =>
          match e with
          | EvLog Debug msg [AKVPair d] =>
              if String.eqb msg "Performing 'Create' for %+v" then Some d else None
          | _ => None
          end) t.

(** The pairs [Update] was entered with. *)
Definition update_attempts (t : list Event) : list KVPair :=
  omap (fun e =>
          match e with
          | EvLog Debug msg [AKVPair d] =>
              if String.eqb msg "Performing 'Update' for %+v" then Some d else None
          | _ => None
          end) t.

(** The keys [Delete] was entered with. *)
Definition delete_attempts (t : list Event) : list Key :=
  omap (fun e =>
          match e with
          | EvLog Debug msg [AKey k] =>
              if String.eqb msg "Performing 'Delete' for %+v" then Some k else None
          | _ => None
          end) t.

(** The keys of the pairs [DeleteKVP] was entered with. *)
Definition deletekvp_attempts (t : list Event) : list Key :=
  omap (fun e =>
          match e with
          | EvLog Debug msg [AKey k] =>
              if String.eqb msg "Performing 'DeleteKVP' for %+v" then Some k else None
          | _ => None
          end) t.

(** The queries [List] was entered with. *)
Definition list_attempts (t : list Event) : list ListInterface :=
  omap (fun e =>
          match e with
          | EvLog Debug msg [AList l; AType _] =>
              if String.eqb msg "Performing 'List' for %+v %v" then Some l else None
          | _ => None
          end) t.




Definition isIPAMQuery (l : ListInterface) : bool :=
  match l with
  | ResourceListOptions _ _ _ => false
  | _ => true
  end.


(** What [Clean] writes back for a listed node entry: the same pair with the
    BGP configuration of the node cleared. *)
Definition withoutBGP (nodeKvp : KVPair) : KVPair :=
  match KVValue nodeKvp with
  | VNode node => mkKVPair (KVKey nodeKvp) (VNode (mkNode (NodeName node) None)) (Revision nodeKvp)
  | _ => nodeKvp
  end.



(** The narrow key types of the IPAM resources. *)
Definition isIPAMKeyType (t : option GoType) : bool :=
  match t with
  | Some TBlockKey | Some TBlockAffinityKey | Some TIPAMHandleKey | Some TIPAMConfigKey => true
  | _ => false
  end.




(** The pod CIDR of the node parses, to an address that has no 4-byte
    form. *)
Definition podCIDRWithout4ByteForm (n : K8sNode) : bool :=
  match ParseCIDR (PodCIDR n) with
  | Ok (ip, _) => bool_decide (To4 ip = [])
  | Err _ => false
  end.

(** ** Statements to compare the code with *)

(** Registration as the specification words it: the list table is written
    only if a list-type descriptor is given. *)
Definition registerResourceClient_asSpecified {W} (c : KubeClient W)
    (keyType listType : option GoType) (resourceKind : string)
    (client : K8sResourceClient W) : KubeClient W :=
  if decide (keyType = resourceKeyType) then
    mkKubeClient (ClientSet c) (crdClientV1 c) (k8sAdminPolicyClient c) (disableNodePoll c)
      (<[resourceKind := client]> (clientsByResourceKind c))
      (clientsByKeyType c)
      (clientsByListType c)
  else
    mkKubeClient (ClientSet c) (crdClientV1 c) (k8sAdminPolicyClient c) (disableNodePoll c)
      (clientsByResourceKind c)
      (<[keyType := client]> (clientsByKeyType c))
      (match listType with
       | Some lt => <[Some lt := client]> (clientsByListType c)
       | None => clientsByListType c
       end).

(** Position of the first occurrence of [x] in [l]. *)
Fixpoint first_index (x : string) (l : list string) : option nat :=
  match l with
  | [] => None
  | y :: rest => if decide (x = y) then Some 0%nat else S <$> first_index x rest
  end.

(** The configuration with every override field left empty. *)
Definition withoutOverrides (ca : CalicoAPIConfigSpec) : CalicoAPIConfigSpec :=
  mkCalicoAPIConfigSpec (Kubeconfig ca) "" "" "" "" "" false (K8sDisableNodePoll ca)
    (K8sUsePodCIDR ca) (KubeconfigInline ca) (K8sClientQPS ca) "".

(** The pair [getTunIp] makes for a node name and a tunnel address. *)
Definition tunnelKVP (address : string) (n : K8sNode) : KVPair :=
  mkKVPair (HostConfigKey (Name n) "IpInIpTunnelAddr") (VString address) "".

(** ** A small cluster to run the adapter on

    The state counts the calls served.  Its resource clients list two
    entries and refuse every write; its node client lists one node. *)
Module Demo.

Definition World : Type := nat.

Definition refused (k : Key) : Error :=
  ErrorResourceUpdateConflict (IdKey k) "the object has been modified".

Definition entry1 : KVPair :=
  mkKVPair (ResourceKey KindIPPool "" "pool-1") (VResource KindIPPool "192.168.0.0/16") "41".

Definition entry2 : KVPair :=
  mkKVPair (ResourceKey KindIPPool "" "pool-2") (VResource KindIPPool "10.244.0.0/16") "42".

Definition entriesClient : K8sResourceClient World :=
  mkResourceClient
    (fun d w => (Err (ErrorResourceAlreadyExists (IdKey (KVKey d)) "exists"), S w))
    (fun d w => (Err (refused (KVKey d)), S w))
    (fun d w => (Err (refused (KVKey d)), S w))
    (fun k _ _ w => (Err (refused k), S w))
    (fun k _ w => (Ok entry1, S w))
    (fun _ revision w => (Ok (mkKVPairList [entry1; entry2] revision), S w))
    (fun _ _ w => (Ok (mkWatch w), S w)).

Definition nodeEntry : KVPair :=
  mkKVPair (ResourceKey KindNode "" "node-a")
    (VNode (mkNode "node-a" (Some (mkBGPSpec "172.16.0.5/24" "64512")))) "7".

Definition nodeClient : K8sResourceClient World :=
  mkResourceClient
    (fun d w => (Err (ErrorResourceAlreadyExists (IdKey (KVKey d)) "exists"), S w))
    (fun d w => (Err (refused (KVKey d)), S w))
    (fun d w => (Err (refused (KVKey d)), S w))
    (fun k _ _ w => (Err (refused k), S w))
    (fun k _ w => (Ok nodeEntry, S w))
    (fun _ revision w => (Ok (mkKVPairList [nodeEntry] revision), S w))
    (fun _ _ w => (Ok (mkWatch w), S w)).

Definition nodeA : K8sNode := mkK8sNode "node-a" "10.1.2.0/24".
Definition nodeB : K8sNode := mkK8sNode "node-b" "".

Definition clientsetFor (cfg : RestConfig) : Clientset World :=
  mkClientset cfg
    (fun w => (inr [nodeA; nodeB], S w))
    (fun name w =>
       if String.eqb name "node-a" then (inr nodeA, S w)
       else if String.eqb name "node-b" then (inr nodeB, S w)
       else (inl (mkK8sError "NotFound" name), S w)).

Definition inlineConfig : RestConfig :=
  mkRestConfig "https://inline.example:6443" "" "" "" None "" "" false "" "" "" 5 10.

(** The loader that goes through the loading rules lets every override
    through to the configuration. *)
Definition loadedConfig (rules : ClientConfigLoadingRules) (o : ConfigOverrides)
    : RestConfig :=
  mkRestConfig (ClusterInfo_Server o) "" "" "" None "" (AuthInfo_Token o)
    (ClusterInfo_InsecureSkipTLSVerify o) (AuthInfo_ClientCertificate o)
    (AuthInfo_ClientKey o) (ClusterInfo_CertificateAuthority o) 5 10.

Definition external : External World :=
  mkExternal
    (fun bytes => inr (mkClientConfig bytes))
    (fun _ => inr inlineConfig)
    (fun rules o => inr (loadedConfig rules o))
    (fun cfg => inr (clientsetFor cfg))
    (fun cfg => inr (mkRESTClient cfg))
    (fun cfg => inr (mkPolicyClient cfg))
    (fun err ident => ErrorDatastoreError ident (k8sMessage err))
    (fun name _ => if String.eqb name "NewNodeClient" then nodeClient else entriesClient).

Definition config (usePodCIDR : bool) : CalicoAPIConfigSpec :=
  mkCalicoAPIConfigSpec "/etc/kube/a.conf:/etc/kube/b.conf:/etc/kube/a.conf"
    "https://10.0.0.1:6443" "" "" "" "" false false usePodCIDR "" 0 "".

Definition inlineConfigSpec : CalicoAPIConfigSpec :=
  mkCalicoAPIConfigSpec "" "https://10.0.0.1:6443" "" "" "" "token-1" true false false
    "apiVersion: v1" 0 "".

(** An adapter with nothing registered. *)
Definition bare : KubeClient World :=
  mkKubeClient (clientsetFor inlineConfig) (mkRESTClient inlineConfig)
    (mkPolicyClient inlineConfig) false ∅ ∅ ∅.

(** The adapter [NewKubeClient] builds, or the bare one if it fails. *)
Definition client (usePodCIDR : bool) : KubeClient World :=
  match NewKubeClient external (config usePodCIDR) with
  | Ok c => c
  | Err _ => bare
  end.

End Demo.

(** ** More readings of the events *)

(** The kinds [NewKubeClient] registers under the generic key type, in the
    order of the registrations. *)
Definition registeredKinds : list string :=
  [ KindIPPool;
    KindIPReservation;
    KindGlobalNetworkPolicy;
    KindStagedGlobalNetworkPolicy;
    KindKubernetesAdminNetworkPolicy;
    KindKubernetesBaselineAdminNetworkPolicy;
    KindGlobalNetworkSet;
    KindNetworkPolicy;
    KindStagedNetworkPolicy;
    KindKubernetesNetworkPolicy;
    KindStagedKubernetesNetworkPolicy;
    KindKubernetesEndpointSlice;
    KindNetworkSet;
    KindTier;
    KindBGPPeer;
    KindBGPConfiguration;
    KindFelixConfiguration;
    KindClusterInformation;
    KindNode;
    KindProfile;
    KindHostEndpoint;
    KindWorkloadEndpoint;
    KindKubeControllersConfiguration;
    KindCalicoNodeStatus;
    KindKubernetesService;
    KindIPAMConfig;
    KindBlockAffinity;
    KindBGPFilter ].

(** The list-type descriptors the IPAM registrations are made with: the
    three IPAM list types and the nil descriptor of the IPAM config. *)
Definition isIPAMListType (t : option GoType) : bool :=
  match t with
  | Some TBlockAffinityListOptions | Some TBlockListOptions
  | Some TIPAMHandleListOptions | None => true
  | _ => false
  end.


(** The [Delete] calls that reached a resource client: key, revision and
    UID. *)
Definition delete_calls (t : list Event) : list (Key * string * option string) :=
  omap (fun e =>
          match e with
          | EvCall (HDelete k revision uid) _ => Some (k, revision, uid)
          | _ => None
          end) t.

(** The pairs of the [DeleteKVP] calls that reached a resource client. *)
Definition deletekvp_calls (t : list Event) : list KVPair :=
  omap (fun e => match e with EvCall (HDeleteKVP d) _ => Some d | _ => None end) t.

(** The pairs of the [Update] calls that reached a resource client. *)
Definition update_calls (t : list Event) : list KVPair :=
  omap (fun e => match e with EvCall (HUpdate d) _ => Some d | _ => None end) t.





(** The [List] calls that reached a resource client: query and revision. *)
Definition list_calls (t : list Event) : list (ListInterface * string) :=
  omap (fun e =>
          match e with
          | EvCall (HList l revision) _ => Some (l, revision)
          | _ => None
          end) t.



(** The clientset call [listHostConfig] makes for a request. *)
Definition nodesCallFor (l : HostConfigListOptionsStruct) : NodesCall :=
  if decide (ListHostname l = "") then NodesList else NodesGet (ListHostname l).

(** ** A cluster with more nodes

    Its nodes have an IPv4 pod CIDR, none, one that does not parse, the last
    address of a network, and an IPv6 pod CIDR; the node of the last kind
    is listed only when asked for. *)
Module Fleet.

Definition World : Type := nat.

Definition plain : K8sNode := mkK8sNode "node-1" "10.1.2.0/24".
Definition unassigned : K8sNode := mkK8sNode "node-2" "".
Definition unparsable : K8sNode := mkK8sNode "node-3" "10.1.3.0".
Definition lastAddress : K8sNode := mkK8sNode "node-4" "10.1.4.255/24".
Definition ipv6 : K8sNode := mkK8sNode "node-6" "fd00:10:244::/64".

Definition nodes (withIPv6 : bool) : list K8sNode :=
  if withIPv6 then [plain; unassigned; ipv6; lastAddress]
  else [plain; unassigned; unparsable; lastAddress].

Definition clientset (withIPv6 : bool) : Clientset World :=
  mkClientset Demo.inlineConfig
    (fun w => (inr (nodes withIPv6), S w))
    (fun name w =>
       match filter (fun n => Name n = name) (nodes withIPv6) with
       | n :: _ => (inr n, S w)
       | [] => (inl (mkK8sError "NotFound" name), S w)
       end).

(** An adapter over the cluster, with nothing registered. *)
Definition client (withIPv6 : bool) : KubeClient World :=
  mkKubeClient (clientset withIPv6) (mkRESTClient Demo.inlineConfig)
    (mkPolicyClient Demo.inlineConfig) false ∅ ∅ ∅.

(** A clientset whose calls fail. *)
Definition unreachable : Clientset World :=
  mkClientset Demo.inlineConfig
    (fun w => (inl (mkK8sError "Timeout" "nodes"), S w))
    (fun name w => (inl (mkK8sError "Timeout" name), S w)).

Definition cutOff : KubeClient World :=
  mkKubeClient unreachable (mkRESTClient Demo.inlineConfig)
    (mkPolicyClient Demo.inlineConfig) false ∅ ∅ ∅.

(** A resource client that accepts every write and lists one entry. *)
Definition accepting : K8sResourceClient World :=
  mkResourceClient
    (fun d w => (Ok (mkKVPair (KVKey d) (KVValue d) "1"), S w))
    (fun d w => (Ok (mkKVPair (KVKey d) (KVValue d) "2"), S w))
    (fun d w => (Ok d, S w))
    (fun k revision _ w => (Ok (mkKVPair k NilValue revision), S w))
    (fun k revision w => (Ok (mkKVPair k (VString "stored") revision), S w))
    (fun _ revision w => (Ok (mkKVPairList [Demo.entry1] revision), S w))
    (fun _ _ w => (Ok (mkWatch w), S w)).

(** An external world whose builds fail as asked. *)
Definition external (crdFails policyFails : bool) : External World :=
  mkExternal
    (fun bytes => inr (mkClientConfig bytes))
    (fun _ => inr Demo.inlineConfig)
    (fun rules o => inr (Demo.loadedConfig rules o))
    (fun cfg => inr (Demo.clientsetFor cfg))
    (fun cfg => if crdFails then inl (mkK8sError "BadConfig" "crd") else inr (mkRESTClient cfg))
    (fun cfg =>
       if policyFails then inl (mkK8sError "BadConfig" "policy") else inr (mkPolicyClient cfg))
    (fun err ident => ErrorDatastoreError ident (k8sMessage err))
    (fun name _ => accepting).

(** An external world in which no kubeconfig can be loaded. *)
Definition noKubeconfig : External World :=
  mkExternal
    (fun bytes => inl (mkK8sError "Invalid" "kubeconfig"))
    (fun _ => inr Demo.inlineConfig)
    (fun rules o => inl (mkK8sError "Missing" (ExplicitPath rules)))
    (fun cfg => inr (Demo.clientsetFor cfg))
    (fun cfg => inr (mkRESTClient cfg))
    (fun cfg => inr (mkPolicyClient cfg))
    (fun err ident => ErrorDatastoreError ident (k8sMessage err))
    (fun name _ => accepting).


End Fleet.

(** * Properties *)

Ltac unfold_run :=
  unfold outcome_of, world_of, events_of, bind, ret, log, panic, invoke, nodes_call in *.

Section Properties.

Context {W : Type}.

Implicit Types (c : KubeClient W) (w : W) (d kvp : KVPair) (k : Key) (l : ListInterface).

(** ** Runs *)

Lemma bind_run {A B} (m : M W A) (k : A -> M W B) w (a : A) (w1 : W) (t1 : list Event) :
  m w = (Normal a, w1, t1) ->
  outcome_of (bind m k w) = outcome_of (k a w1)
  /\ world_of (bind m k w) = world_of (k a w1)
  /\ events_of (bind m k w) = t1 ++ events_of (k a w1).
Proof.
  intros Hm. unfold bind. rewrite Hm.
  destruct (k a w1) as [[o w2] t2]. repeat split.
Qed.

Lemma run_eta {A} (r : outcome A * W * list Event) :
  r = (outcome_of r, world_of r, events_of r).
Proof. destruct r as [[o w'] t]. reflexivity. Qed.

(** ** Readiness *)

(** The readiness helper answers with the value true, whatever the
    revision, in the state it was asked in and without any event: no
    resource client and no clientset call is involved. *)
Lemma getReadyStatus_true c (k : ReadyFlagKeyStruct) (revision : string) w :
  getReadyStatus c k revision w
  = (Normal (Ok (mkKVPair ReadyFlagKey (VBool true) "")), w, []).
Proof. reflexivity. Qed.

(** ** Operations without a resource client *)

Lemma Create_not_supported c d w :
  getResourceClientFromKey c (KVKey d) = None ->
  outcome_of (Create c d w)
    = Normal (Err (ErrorOperationNotSupported (IdKey (KVKey d)) "Create"))
  /\ world_of (Create c d w) = w
  /\ handler_calls (events_of (Create c d w)) = [].
Proof. intros H. unfold Create. unfold_run. rewrite H. auto. Qed.

Lemma Update_not_supported c d w :
  getResourceClientFromKey c (KVKey d) = None ->
  outcome_of (Update c d w)
    = Normal (Err (ErrorOperationNotSupported (IdKey (KVKey d)) "Update"))
  /\ world_of (Update c d w) = w
  /\ handler_calls (events_of (Update c d w)) = [].
Proof. intros H. unfold Update. unfold_run. rewrite H. auto. Qed.

Lemma Delete_not_supported c k (revision : string) w :
  getResourceClientFromKey c k = None ->
  outcome_of (Delete c k revision w)
    = Normal (Err (ErrorOperationNotSupported (IdKey k) "Delete"))
  /\ world_of (Delete c k revision w) = w
  /\ handler_calls (events_of (Delete c k revision w)) = [].
Proof. intros H. unfold Delete. unfold_run. rewrite H. auto. Qed.

Lemma DeleteKVP_not_supported c kvp w :
  getResourceClientFromKey c (KVKey kvp) = None ->
  outcome_of (DeleteKVP c kvp w)
    = Normal (Err (ErrorOperationNotSupported (IdKey (KVKey kvp)) "Delete"))
  /\ world_of (DeleteKVP c kvp w) = w
  /\ handler_calls (events_of (DeleteKVP c kvp w)) = [].
Proof. intros H. unfold DeleteKVP. unfold_run. rewrite H. auto. Qed.

Lemma Get_not_supported c k (revision : string) w :
  getResourceClientFromKey c k = None ->
  outcome_of (Get c k revision w)
    = Normal (Err (ErrorOperationNotSupported (IdKey k) "Get"))
  /\ world_of (Get c k revision w) = w
  /\ handler_calls (events_of (Get c k revision w)) = [].
Proof. intros H. unfold Get. unfold_run. rewrite H. auto. Qed.

Lemma List_not_supported c l (revision : string) w :
  getResourceClientFromList c l = None ->
  outcome_of (List c l revision w)
    = Normal (Err (ErrorOperationNotSupported (IdList l) "List"))
  /\ world_of (List c l revision w) = w
  /\ handler_calls (events_of (List c l revision w)) = [].
Proof. intros H. unfold List. unfold_run. rewrite H. auto. Qed.

Lemma Watch_not_supported c l (options : WatchOptions) w :
  getResourceClientFromList c l = None ->
  outcome_of (Watch c l options w)
    = Normal (Err (ErrorOperationNotSupported (IdList l) "Watch"))
  /\ world_of (Watch c l options w) = w
  /\ handler_calls (events_of (Watch c l options w)) = [].
Proof. intros H. unfold Watch. unfold_run. rewrite H. auto. Qed.

(** ** Apply *)

(** C2: [Apply] enters [Create] first and once, with the key and value of
    the pair and no revision, in the state [Apply] was called in.  When
    that fails with "already exists", [Update] is entered once, with the
    pair as given, in the state [Create] left, and its result is the
    result of [Apply].  When [Create] fails otherwise, its error is the
    result, [Update] is not entered and no resource client is called after
    those [Create] called; when it succeeds, its value is the result and
    [Update] is not entered. *)
Theorem Apply_create_then_update c kvp w :
  let stripped := mkKVPair (KVKey kvp) (KVValue kvp) "" in
  let created := Create c stripped w in
  let applied := Apply c kvp w in
  create_attempts (events_of applied) = [stripped]
  /\ (exists logContext rest,
        events_of applied
        = EvLog Debug "Apply Kubernetes resource" logContext :: events_of created ++ rest)
  /\ match outcome_of created with
     | Normal (Ok updated) =>
         outcome_of applied = Normal (Ok updated)
         /\ world_of applied = world_of created
         /\ update_attempts (events_of applied) = []
         /\ handler_calls (events_of applied) = handler_calls (events_of created)
     | Normal (Err err) =>
         if isErrorResourceAlreadyExists err then
           let updated := Update c kvp (world_of created) in
           outcome_of applied = outcome_of updated
           /\ world_of applied = world_of updated
           /\ update_attempts (events_of applied) = [kvp]
           /\ handler_calls (events_of applied)
              = handler_calls (events_of created) ++ handler_calls (events_of updated)
         else
           outcome_of applied = Normal (Err err)
           /\ world_of applied = world_of created
           /\ update_attempts (events_of applied) = []
           /\ handler_calls (events_of applied) = handler_calls (events_of created)
     | Panicked _ => False
     end.
Proof.
  unfold Apply, Create, Update. unfold_run. simpl.
  destruct (getResourceClientFromKey c (KVKey kvp)) as [client|] eqn:Hclient; simpl.
  - destruct (rcCreate client _ w) as [[updated|err] w1] eqn:Hcreate; simpl.
    + repeat split; eauto.
    + destruct (isErrorResourceAlreadyExists err) eqn:Hexists; simpl.
      * destruct (rcUpdate client kvp w1) as [[updated|err'] w2] eqn:Hupdate; simpl;
          repeat split; eauto.
      * repeat split; eauto.
  - repeat split; eauto.
Qed.

(** C1: on a key without resource client, [DeleteKVP] reports the operation
    "Delete", not its own name.  In the adapter built for pod-CIDR mode a
    block key has no resource client; [DeleteKVP] on it ends with a
    not-supported error that carries the key and the operation "Delete",
    in the state it was called in, having written its two log lines and
    called no resource client. *)
Theorem DeleteKVP_not_supported_reports_Delete :
  let kvp := mkKVPair (BlockKey "10.244.1.0/26") (VResource KindIPAMBlock "") "3" in
  getResourceClientFromKey (Demo.client true) (KVKey kvp) = None
  /\ DeleteKVP (Demo.client true) kvp 0%nat
     = (Normal (Err (ErrorOperationNotSupported (IdKey (KVKey kvp)) "Delete")), 0%nat,
        [EvLog Debug "Performing 'DeleteKVP' for %+v" [AKey (KVKey kvp)];
         EvLog Debug "Attempt to 'DeleteKVP' using kubernetes backend is not supported." []])
  /\ "Delete" <> "DeleteKVP".
Proof. vm_compute. repeat split; discriminate. Qed.

(** ** Registry *)

Lemma getResourceClientFromKey_paths c key :
  getResourceClientFromKey c key
  = match key with
    | ResourceKey Kind _ _ => clientsByResourceKind c !! Kind
    | _ => clientsByKeyType c !! TypeOfKey key
    end.
Proof. destruct key; reflexivity. Qed.

Lemma getResourceClientFromList_paths c l :
  getResourceClientFromList c l
  = match l with
    | ResourceListOptions Kind _ _ => clientsByResourceKind c !! Kind
    | _ => clientsByListType c !! TypeOfList l
    end.
Proof. destruct l; reflexivity. Qed.

(** C4, as the code has it: a registration under the generic key type
    writes the kind table only; any other registration writes the key-type
    table under the key-type descriptor and the list-type table under the
    list-type descriptor, whether or not one is given: an absent (nil)
    descriptor is written as the nil entry of the list-type table.  A
    generic key or list query is resolved by its kind in the kind table,
    any other key or list query by its own type in the key-type or
    list-type table. *)
Theorem registerResourceClient_tables c (keyType listType : option GoType)
    (resourceKind : string) (client : K8sResourceClient W) :
  let c' := registerResourceClient c keyType listType resourceKind client in
  (if decide (keyType = resourceKeyType) then
     clientsByResourceKind c' = <[resourceKind := client]> (clientsByResourceKind c)
     /\ clientsByKeyType c' = clientsByKeyType c
     /\ clientsByListType c' = clientsByListType c
   else
     clientsByResourceKind c' = clientsByResourceKind c
     /\ clientsByKeyType c' = <[keyType := client]> (clientsByKeyType c)
     /\ clientsByListType c' = <[listType := client]> (clientsByListType c)
     /\ clientsByKeyType c' !! keyType = Some client
     /\ clientsByListType c' !! listType = Some client)
  /\ (forall key,
        getResourceClientFromKey c' key
        = match key with
          | ResourceKey Kind _ _ => clientsByResourceKind c' !! Kind
          | _ => clientsByKeyType c' !! TypeOfKey key
          end)
  /\ (forall l,
        getResourceClientFromList c' l
        = match l with
          | ResourceListOptions Kind _ _ => clientsByResourceKind c' !! Kind
          | _ => clientsByListType c' !! TypeOfList l
          end).
Proof.
  intros c'. subst c'. unfold registerResourceClient.
  split; [|split].
  - destruct (decide (keyType = resourceKeyType)); simpl.
    + auto.
    + rewrite !lookup_insert_eq. auto.
  - apply getResourceClientFromKey_paths.
  - apply getResourceClientFromList_paths.
Qed.

(** C4, as stated, fails: registered without a list-type descriptor, as
    the IPAM-config client is, a client is still written to the list-type
    table, under the nil descriptor, where a registration that skipped the
    list table would leave none; a nil list query is then resolved to that
    client. *)
Lemma registerResourceClient_nil_list_type :
  let c' :=
    registerResourceClient Demo.bare (Some TIPAMConfigKey) None KindIPAMConfig
      Demo.entriesClient in
  let specified :=
    registerResourceClient_asSpecified Demo.bare (Some TIPAMConfigKey) None KindIPAMConfig
      Demo.entriesClient in
  clientsByListType c' !! (None : option GoType) = Some Demo.entriesClient
  /\ clientsByListType specified !! (None : option GoType) = None
  /\ clientsByListType c' <> clientsByListType specified
  /\ getResourceClientFromList c' NilList = Some Demo.entriesClient.
Proof.
  simpl. repeat split.
  intros Heq.
  assert (H : (<[None:=Demo.entriesClient]> (∅ : gmap (option GoType) _)) !! None
              = (∅ : gmap (option GoType) (K8sResourceClient Demo.World)) !! None)
    by (rewrite Heq; reflexivity).
  rewrite lookup_insert_eq, lookup_empty in H. discriminate.
Qed.

(** ** Construction *)

Lemma registerKinds_narrow_tables ext ca cs crd pol c :
  clientsByKeyType (registerKinds ext ca cs crd pol c) = clientsByKeyType c
  /\ clientsByListType (registerKinds ext ca cs crd pol c) = clientsByListType c.
Proof. split; reflexivity. Qed.

Lemma registerIPAM_key_table ext cs crd c :
  clientsByKeyType (registerIPAM ext cs crd c)
  = <[Some TIPAMConfigKey := resources_New ext "NewIPAMConfigClient" (WithCRD cs crd)]>
      (<[Some TIPAMHandleKey := resources_New ext "NewIPAMHandleClient" (WithCRD cs crd)]>
         (<[Some TBlockKey := resources_New ext "NewIPAMBlockClient" (WithCRD cs crd)]>
            (<[Some TBlockAffinityKey :=
                 resources_New ext "NewBlockAffinityClient" (WithCRD cs crd)]>
               (clientsByKeyType c)))).
Proof. reflexivity. Qed.

Lemma NewKubeClient_key_table ext ca c :
  NewKubeClient ext ca = Ok c ->
  exists cs crd,
    clientsByKeyType c
    = if K8sUsePodCIDR ca then ∅
      else clientsByKeyType
             (registerIPAM ext cs crd
                (mkKubeClient cs crd (k8sAdminPolicyClient c) (disableNodePoll c) ∅ ∅ ∅)).
Proof.
  unfold NewKubeClient.
  destruct (CreateKubernetesClientset ext ca) as [[config cs]|]; [|discriminate].
  destruct (buildCRDClientV1 ext config) as [|crd]; [discriminate|].
  destruct (buildK8SAdminPolicyClient ext config) as [|pol]; [discriminate|].
  intros [= <-]. exists cs, crd.
  destruct (K8sUsePodCIDR ca); reflexivity.
Qed.

(** C3, as the code has it: in an adapter that [NewKubeClient] built, a
    key of one of the four narrow IPAM types (block, block affinity, IPAM
    handle, IPAM config) has a resource client exactly when [K8sUsePodCIDR]
    is false, that is, when Calico's own IPAM is in use; with
    [K8sUsePodCIDR] true such a key has none. *)
Theorem IPAM_keys_registered_iff_calico_ipam (ext : External W) ca c key :
  NewKubeClient ext ca = Ok c ->
  isIPAMKeyType (TypeOfKey key) = true ->
  (is_Some (getResourceClientFromKey c key) <-> K8sUsePodCIDR ca = false).
Proof.
  intros Hnew Hkey.
  destruct (NewKubeClient_key_table ext ca c Hnew) as (cs & crd & Htable).
  rewrite getResourceClientFromKey_paths.
  destruct (K8sUsePodCIDR ca).
  - destruct key; simpl in Hkey; try discriminate;
      rewrite Htable, lookup_empty; split; (intros [? ?] || intros ?); discriminate.
  - rewrite registerIPAM_key_table in Htable.
    destruct key; simpl in Hkey; try discriminate; rewrite Htable; simpl;
      split; intros _; try reflexivity.
    + rewrite lookup_insert_ne, lookup_insert_ne, lookup_insert_eq by discriminate. eauto.
    + rewrite lookup_insert_ne, lookup_insert_ne, lookup_insert_ne, lookup_insert_eq
        by discriminate. eauto.
    + rewrite lookup_insert_ne, lookup_insert_eq by discriminate. eauto.
    + rewrite lookup_insert_eq. eauto.
Qed.

(** C3, as stated, fails: with [K8sUsePodCIDR] true the adapter is built
    and none of the four narrow IPAM key types has a resource client; with
    [K8sUsePodCIDR] false each of them has one. *)
Lemma pod_cidr_mode_registers_no_IPAM_keys :
  K8sUsePodCIDR (Demo.config true) = true
  /\ match NewKubeClient Demo.external (Demo.config true) with
     | Ok c =>
         getResourceClientFromKey c (BlockKey "10.244.1.0/26") = None
         /\ getResourceClientFromKey c (BlockAffinityKey "10.244.1.0/26" "node-a") = None
         /\ getResourceClientFromKey c (IPAMHandleKey "handle-1") = None
         /\ getResourceClientFromKey c IPAMConfigKey = None
     | Err _ => False
     end
  /\ match NewKubeClient Demo.external (Demo.config false) with
     | Ok c =>
         getResourceClientFromKey c (BlockKey "10.244.1.0/26") = Some Demo.entriesClient
         /\ getResourceClientFromKey c (BlockAffinityKey "10.244.1.0/26" "node-a")
            = Some Demo.entriesClient
         /\ getResourceClientFromKey c (IPAMHandleKey "handle-1") = Some Demo.entriesClient
         /\ getResourceClientFromKey c IPAMConfigKey = Some Demo.entriesClient
     | Err _ => False
     end.
Proof. vm_compute. repeat split. Qed.

(** ** Client factory: overrides *)

(** Every override field is assigned exactly when its value is not empty,
    and the skip-verify flag exactly when it is set: the overrides built
    carry the configured values. *)
Lemma configOverridesOf_fields ca :
  let o := configOverridesOf ca in
  CurrentContext o = K8sCurrentContext ca
  /\ ClusterInfo_Server o = K8sAPIEndpoint ca
  /\ AuthInfo_ClientCertificate o = K8sCertFile ca
  /\ AuthInfo_ClientKey o = K8sKeyFile ca
  /\ ClusterInfo_CertificateAuthority o = K8sCAFile ca
  /\ AuthInfo_Token o = K8sAPIToken ca
  /\ ClusterInfo_InsecureSkipTLSVerify o = K8sInsecureSkipTLSVerify ca.
Proof.
  unfold configOverridesOf, overridesMap.
  generalize (K8sCurrentContext ca) (K8sAPIEndpoint ca) (K8sCertFile ca) (K8sKeyFile ca)
    (K8sCAFile ca) (K8sAPIToken ca) (K8sInsecureSkipTLSVerify ca).
  intros ctx ep cf kf caf tok skip.
  cbv [fold_left fst snd].
  repeat case_decide;
    repeat match goal with
           | H : ¬ (_ ≠ "") |- _ => apply dec_stable in H
           end;
    destruct skip; simpl; repeat split; congruence.
Qed.

(** Without an inline kubeconfig, the loading rules and the overrides go to
    the loader together. *)
Lemma CreateKubernetesClientset_deferred (ext : External W) ca :
  KubeconfigInline ca = "" ->
  forall err,
    NewNonInteractiveDeferredLoadingClientConfig ext (loadingRulesOf ca) (configOverridesOf ca)
    = inl err ->
    CreateKubernetesClientset ext ca = Err (K8sErrorToCalico ext err IdNil).
Proof.
  intros Hinline err Hload. unfold CreateKubernetesClientset.
  rewrite Hinline. simpl. rewrite Hload. reflexivity.
Qed.

(** C6: with an inline kubeconfig the override fields are not layered on
    the configuration: the overrides that were built are handed to no
    loader, and the result is the one the same configuration gives with
    every override field left empty. *)
Theorem inline_kubeconfig_ignores_overrides (ext : External W) ca :
  KubeconfigInline ca <> "" ->
  CreateKubernetesClientset ext ca = CreateKubernetesClientset ext (withoutOverrides ca).
Proof.
  intros Hinline. unfold CreateKubernetesClientset. simpl.
  destruct (decide (KubeconfigInline ca ≠ "")); [reflexivity | contradiction].
Qed.

(** ** Host configuration: tunnel addresses *)

(** C10: [getTunIp] is not total on the pod CIDRs that parse.  The IPv6 pod
    CIDR fd00:10:244::/64 parses to a 16-byte address that has no 4-byte
    form; the index 3 of the nil slice is then out of range and [getTunIp]
    panics, for every node name and in every state. *)
Theorem getTunIp_IPv6_panics (name : string) w :
  (exists ip ipnet,
      ParseCIDR "fd00:10:244::/64" = Ok (ip, ipnet)
      /\ length ip = 16%nat /\ To4 ip = [])
  /\ getTunIp (mkK8sNode name "fd00:10:244::/64") w
     = (Panicked "runtime error: index out of range [3] with length 0", w, []).
Proof.
  split.
  - eexists _, _. vm_compute. repeat split.
  - reflexivity.
Qed.

Lemma getTunIp_empty (name : string) w :
  getTunIp (mkK8sNode name "") w
  = (Normal (Ok None), w,
     [EvLog Warning "Node %s does not have podCIDR for HostConfig" [AString name]]).
Proof. reflexivity. Qed.

Lemma getTunIp_10_1_2_0 (name : string) w :
  getTunIp (mkK8sNode name "10.1.2.0/24") w
  = (Normal (Ok (Some (tunnelKVP "10.1.2.1" (mkK8sNode name "10.1.2.0/24")))), w, []).
Proof. reflexivity. Qed.

Lemma listHostConfig_range_tunnel (items : list K8sNode) (kvps : list KVPair) w :
  Forall (fun n => PodCIDR n = "" \/ PodCIDR n = "10.1.2.0/24") items ->
  outcome_of (listHostConfig_range items kvps w)
  = Normal (kvps ++ map (tunnelKVP "10.1.2.1") (filter (fun n => PodCIDR n ≠ "") items))
  /\ world_of (listHostConfig_range items kvps w) = w.
Proof.
  intros Hitems. revert kvps.
  induction Hitems as [|[name cidr] rest Hn Hrest IH]; intros kvps.
  - simpl. rewrite app_nil_r. split; reflexivity.
  - simpl in Hn. destruct Hn as [-> | ->].
    + rewrite filter_cons_False by (simpl; intros H; apply H; reflexivity).
      change (listHostConfig_range (mkK8sNode name "" :: rest) kvps w)
        with (bind (getTunIp (mkK8sNode name ""))
                (fun r => match r with
                          | Ok (Some kvp) => listHostConfig_range rest (kvps ++ [kvp])
                          | _ => listHostConfig_range rest kvps
                          end) w).
      unfold bind. rewrite getTunIp_empty.
      destruct (IH kvps) as [Hout Hworld].
      destruct (listHostConfig_range rest kvps w) as [[o w1] t1].
      unfold outcome_of, world_of in *. simpl in *. auto.
    + rewrite filter_cons_True by (simpl; discriminate).
      change (listHostConfig_range (mkK8sNode name "10.1.2.0/24" :: rest) kvps w)
        with (bind (getTunIp (mkK8sNode name "10.1.2.0/24"))
                (fun r => match r with
                          | Ok (Some kvp) => listHostConfig_range rest (kvps ++ [kvp])
                          | _ => listHostConfig_range rest kvps
                          end) w).
      unfold bind. rewrite getTunIp_10_1_2_0.
      destruct (IH (kvps ++ [tunnelKVP "10.1.2.1" (mkK8sNode name "10.1.2.0/24")]))
        as [Hout Hworld].
      destruct (listHostConfig_range rest _ w) as [[o w1] t1].
      unfold outcome_of, world_of in *. simpl in *.
      rewrite <- app_assoc in Hout. auto.
Qed.

Lemma To4_length (ip : IP) : To4 ip = [] \/ length (To4 ip) = 4%nat.
Proof.
  unfold To4. destruct (decide (length ip = 4%nat)); [by right|].
  destruct (decide (length ip = 16%nat)) as [Hlen|]; [|by left].
  destruct (decide (take 12 ip = v4InV6Prefix)); [|by left].
  right. rewrite length_drop, Hlen. reflexivity.
Qed.

(** [getTunIp] panics exactly on the nodes whose pod CIDR parses to an
    address without 4-byte form; on any other node it returns, in the state
    it was called in, and a pair it returns is keyed by the name of the
    node, which then has a pod CIDR. *)
Lemma getTunIp_run (n : K8sNode) w :
  if podCIDRWithout4ByteForm n then
    getTunIp n w = (Panicked "runtime error: index out of range [3] with length 0", w, [])
  else
    exists r,
      outcome_of (getTunIp n w) = Normal r
      /\ world_of (getTunIp n w) = w
      /\ (PodCIDR n = "" -> r = Ok None)
      /\ (forall kvp, r = Ok (Some kvp) ->
            PodCIDR n <> "" /\ KVKey kvp = HostConfigKey (Name n) "IpInIpTunnelAddr").
Proof.
  unfold podCIDRWithout4ByteForm, getTunIp.
  destruct (decide (PodCIDR n = "")) as [Hempty|Hcidr].
  - rewrite Hempty. simpl. exists (Ok None).
    split; [reflexivity|]. split; [reflexivity|]. split; [reflexivity|].
    intros kvp Hkvp. discriminate.
  - destruct (ParseCIDR (PodCIDR n)) as [[ip ipnet]|err].
    + destruct (bool_decide_reflect (To4 ip = [])) as [Hnil|Hsome].
      * rewrite Hnil. reflexivity.
      * destruct (To4_length ip) as [?|Hlen]; [contradiction|].
        cbv zeta. destruct (To4 ip !! 3%nat) as [b|] eqn:Hb.
        2: { apply lookup_ge_None in Hb. lia. }
        eexists.
        split; [reflexivity|]. split; [reflexivity|]. split; [contradiction|].
        intros kvp [= <-]. split; [assumption|reflexivity].
    + exists (Err err).
      split; [reflexivity|]. split; [reflexivity|]. split; [contradiction|].
      intros kvp Hkvp. discriminate.
Qed.

Lemma listHostConfig_range_run (items : list K8sNode) (kvps : list KVPair) w :
  Forall (fun n => podCIDRWithout4ByteForm n = false) items ->
  exists new,
    outcome_of (listHostConfig_range items kvps w) = Normal (kvps ++ new)
    /\ world_of (listHostConfig_range items kvps w) = w
    /\ (forall n, n ∈ items -> PodCIDR n = "10.1.2.0/24" -> tunnelKVP "10.1.2.1" n ∈ new)
    /\ (forall kvp, kvp ∈ new ->
          exists n, n ∈ items /\ PodCIDR n <> ""
                    /\ KVKey kvp = HostConfigKey (Name n) "IpInIpTunnelAddr").
Proof.
  intros Hitems. revert kvps.
  induction Hitems as [|n rest Hn Hrest IH]; intros kvps.
  - exists []. rewrite app_nil_r. repeat split.
    + intros n Hin. by apply elem_of_nil in Hin.
    + intros kvp Hin. by apply elem_of_nil in Hin.
  - pose proof (getTunIp_run n w) as Hrun. rewrite Hn in Hrun.
    destruct Hrun as (r & Hout & Hworld & Hempty & Hkvp).
    simpl listHostConfig_range.
    match goal with
    | |- context [bind ?m ?k w] =>
        destruct (bind_run m k w r w (events_of (getTunIp n w))) as (Ho & Hw & _)
    end.
    { transitivity (outcome_of (getTunIp n w), world_of (getTunIp n w),
                    events_of (getTunIp n w)); [apply run_eta|].
      by rewrite Hout, Hworld. }
    rewrite Ho, Hw.
    assert (Hthis : PodCIDR n = "10.1.2.0/24" ->
                    r = Ok (Some (tunnelKVP "10.1.2.1" n))).
    { intros Hcidr. destruct n as [name cidr]. simpl in Hcidr. subst cidr.
      rewrite getTunIp_10_1_2_0 in Hout. unfold outcome_of in Hout. simpl in Hout.
      by injection Hout as <-. }
    destruct r as [[kvp|]|err].
    + destruct (IH (kvps ++ [kvp])) as (new & Hout' & Hworld' & Hhas & Honly).
      destruct (Hkvp kvp eq_refl) as [Hcidr Hkey].
      exists (kvp :: new). rewrite Hout', <- app_assoc. repeat split; [assumption|..].
      * intros n' Hin Hcidr'. apply elem_of_cons in Hin as [->|Hin].
        -- specialize (Hthis Hcidr'). injection Hthis as ->. by left.
        -- right. by apply Hhas.
      * intros kvp' Hin. apply elem_of_cons in Hin as [->|Hin].
        -- exists n. split; [by left|]. split; assumption.
        -- destruct (Honly kvp' Hin) as (n' & ? & ? & ?).
           exists n'. split; [by right|]. split; assumption.
    + destruct (IH kvps) as (new & Hout' & Hworld' & Hhas & Honly).
      exists new. repeat split; [assumption..| |].
      * intros n' Hin Hcidr'. apply elem_of_cons in Hin as [->|Hin].
        -- specialize (Hthis Hcidr'). discriminate.
        -- by apply Hhas.
      * intros kvp' Hin. destruct (Honly kvp' Hin) as (n' & ? & ? & ?).
        exists n'. split; [by right|]. split; assumption.
    + destruct (IH kvps) as (new & Hout' & Hworld' & Hhas & Honly).
      exists new. repeat split; [assumption..| |].
      * intros n' Hin Hcidr'. apply elem_of_cons in Hin as [->|Hin].
        -- specialize (Hthis Hcidr'). discriminate.
        -- by apply Hhas.
      * intros kvp' Hin. destruct (Honly kvp' Hin) as (n' & ? & ? & ?).
        exists n'. split; [by right|]. split; assumption.
Qed.

(** X26: a request for the tunnel addresses of all hosts, over nodes none
    of which has a pod CIDR without 4-byte form, succeeds, under the
    revision asked for.  For every node whose pod CIDR is 10.1.2.0/24 the
    result holds the pair keyed by the name of the node and
    IpInIpTunnelAddr with value 10.1.2.1; every pair of the result is keyed
    by the name of a node that has a pod CIDR, so a node without pod CIDR
    is left out; and when every node has that pod CIDR or none, the result
    is exactly the pairs of the nodes that have it, in the order of the
    nodes. *)
Theorem listHostConfig_tunnel_addresses (ext : External W) c
    (l : HostConfigListOptionsStruct) (revision : string) w (items : list K8sNode) (w1 : W) :
  ListName l = "" \/ ListName l = "IpInIpTunnelAddr" ->
  ListHostname l = "" ->
  CoreV1NodesList (ClientSet c) w = (inr items, w1) ->
  Forall (fun n => podCIDRWithout4ByteForm n = false) items ->
  exists kvps,
    outcome_of (listHostConfig ext c l revision w) = Normal (Ok (mkKVPairList kvps revision))
    /\ (forall n, n ∈ items -> PodCIDR n = "10.1.2.0/24" ->
          mkKVPair (HostConfigKey (Name n) "IpInIpTunnelAddr") (VString "10.1.2.1") "" ∈ kvps)
    /\ (forall kvp, kvp ∈ kvps ->
          exists n, n ∈ items /\ PodCIDR n <> ""
                    /\ KVKey kvp = HostConfigKey (Name n) "IpInIpTunnelAddr")
    /\ (Forall (fun n => PodCIDR n = "" \/ PodCIDR n = "10.1.2.0/24") items ->
        kvps = map (tunnelKVP "10.1.2.1") (filter (fun n => PodCIDR n ≠ "") items)).
Proof.
  intros Hname Hhost Hlist Hitems.
  destruct (listHostConfig_range_run items [] w1 Hitems)
    as (kvps & Hout & _ & Hhas & Honly).
  exists kvps. split; [|split; [exact Hhas|split; [exact Honly|]]].
  - unfold listHostConfig.
    replace (bool_decide (ListName l ≠ "") && bool_decide (ListName l ≠ "IpInIpTunnelAddr"))
      with false by (destruct Hname as [-> | ->]; reflexivity).
    rewrite Hhost. simpl. unfold bind, nodes_call. rewrite Hlist.
    destruct (listHostConfig_range items [] w1) as [[o w2] t2].
    unfold outcome_of in *. simpl in *. rewrite Hout. reflexivity.
  - intros Htwo.
    destruct (listHostConfig_range_tunnel items [] w1 Htwo) as [Hexact _].
    rewrite Hout in Hexact. simpl in Hexact. by injection Hexact.
Qed.

(** A request for one host asks for that node only. *)
Lemma listHostConfig_one_host (ext : External W) c (l : HostConfigListOptionsStruct)
    (revision : string) w (node : K8sNode) (w1 : W) :
  ListName l = "" \/ ListName l = "IpInIpTunnelAddr" ->
  ListHostname l <> "" ->
  CoreV1NodesGet (ClientSet c) (ListHostname l) w = (inr node, w1) ->
  (PodCIDR node = "10.1.2.0/24" ->
   outcome_of (listHostConfig ext c l revision w)
   = Normal (Ok (mkKVPairList [tunnelKVP "10.1.2.1" node] revision)))
  /\ (PodCIDR node = "" ->
      outcome_of (listHostConfig ext c l revision w) = Normal (Ok (mkKVPairList [] revision))).
Proof.
  intros Hname Hhost Hget.
  assert (Hrun : forall r,
             (forall w', outcome_of (getTunIp node w') = Normal r /\ world_of (getTunIp node w') = w') ->
             outcome_of (listHostConfig ext c l revision w)
             = match r with
               | Ok (Some kvp) => Normal (Ok (mkKVPairList [kvp] revision))
               | _ => Normal (Ok (mkKVPairList [] revision))
               end).
  { intros r Hr. unfold listHostConfig.
    replace (bool_decide (ListName l ≠ "") && bool_decide (ListName l ≠ "IpInIpTunnelAddr"))
      with false by (destruct Hname as [-> | ->]; reflexivity).
    destruct (decide (ListHostname l = "")); [contradiction|].
    unfold bind, nodes_call. rewrite Hget.
    destruct (Hr w1) as [Hout _].
    destruct (getTunIp node w1) as [[o w2] t2]. unfold outcome_of in *. simpl in *.
    subst o. destruct r as [[kvp|]|]; reflexivity. }
  destruct node as [name cidr]. simpl. split; intros ->.
  - apply (Hrun (Ok (Some (tunnelKVP "10.1.2.1" (mkK8sNode name "10.1.2.0/24"))))).
    intros w'. rewrite getTunIp_10_1_2_0. split; reflexivity.
  - apply (Hrun (Ok None)). intros w'. rewrite getTunIp_empty. split; reflexivity.
Qed.

(** ** Client factory: kubeconfig paths *)

Lemma deduplicate_from_ret (s : list string) (encountered : gset string) (ret : list string) :
  deduplicate_from s encountered ret = ret ++ deduplicate_from s encountered [].
Proof.
  revert encountered ret. induction s as [|si rest IH]; intros encountered ret; simpl.
  - by rewrite app_nil_r.
  - destruct (decide (si ∈ encountered)); [apply IH|].
    rewrite (IH _ (ret ++ [si])), (IH _ [si]). by rewrite <- app_assoc.
Qed.

Lemma deduplicate_from_cons (si : string) (rest : list string) (encountered : gset string) :
  deduplicate_from (si :: rest) encountered []
  = if decide (si ∈ encountered) then deduplicate_from rest encountered []
    else si :: deduplicate_from rest ({[si]} ∪ encountered) [].
Proof.
  simpl. destruct (decide (si ∈ encountered)); [reflexivity|].
  by rewrite deduplicate_from_ret.
Qed.

Lemma deduplicate_from_elem (s : list string) (encountered : gset string) (x : string) :
  x ∈ deduplicate_from s encountered [] <-> x ∈ s /\ x ∉ encountered.
Proof.
  revert encountered. induction s as [|si rest IH]; intros encountered.
  - simpl. rewrite !elem_of_nil. tauto.
  - rewrite deduplicate_from_cons. destruct (decide (si ∈ encountered)).
    + rewrite IH, elem_of_cons. split; [tauto|].
      intros [[->|?] ?]; [contradiction|tauto].
    + rewrite !elem_of_cons, IH. split.
      * intros [->|[? ?]]; [tauto|]. split; [tauto|set_solver].
      * intros [[->|?] ?]; [tauto|].
        destruct (decide (x = si)) as [->|]; [tauto|]. right. split; [done|set_solver].
Qed.

Lemma deduplicate_from_NoDup (s : list string) (encountered : gset string) :
  NoDup (deduplicate_from s encountered []).
Proof.
  revert encountered. induction s as [|si rest IH]; intros encountered.
  - simpl. constructor.
  - rewrite deduplicate_from_cons. destruct (decide (si ∈ encountered)); [apply IH|].
    constructor; [|apply IH].
    rewrite deduplicate_from_elem. set_solver.
Qed.

Lemma first_index_elem (x : string) (l : list string) :
  x ∈ l -> exists pos : nat, first_index x l = Some pos.
Proof.
  induction l as [|y rest IH]; [by rewrite elem_of_nil|].
  rewrite elem_of_cons. intros Hx. simpl.
  destruct (decide (x = y)); [eauto|].
  destruct Hx as [?|Hx]; [contradiction|].
  destruct (IH Hx) as [pos ->]. simpl. eauto.
Qed.

Lemma deduplicate_from_order (s : list string) (encountered : gset string)
    (i j : nat) (p q : string) :
  (i < j)%nat ->
  deduplicate_from s encountered [] !! i = Some p ->
  deduplicate_from s encountered [] !! j = Some q ->
  exists ki kj, first_index p s = Some ki /\ first_index q s = Some kj /\ (ki < kj)%nat.
Proof.
  revert encountered i j. induction s as [|si rest IH]; intros encountered i j Hij Hp Hq.
  - simpl in Hp. discriminate.
  - rewrite deduplicate_from_cons in Hp, Hq.
    assert (Hne : forall (E : gset string) x (pos : nat),
               x ≠ si -> first_index x rest = Some pos ->
               first_index x (si :: rest) = Some (S pos)).
    { intros E x pos Hx Hpos. simpl. destruct (decide (x = si)); [contradiction|].
      rewrite Hpos. reflexivity. }
    destruct (decide (si ∈ encountered)) as [Hin|Hnotin].
    + destruct (IH _ _ _ Hij Hp Hq) as (ki & kj & Hki & Hkj & Hlt).
      assert (p ≠ si).
      { intros ->. apply list_elem_of_lookup_2, deduplicate_from_elem in Hp. tauto. }
      assert (q ≠ si).
      { intros ->. apply list_elem_of_lookup_2, deduplicate_from_elem in Hq. tauto. }
      exists (S ki), (S kj). repeat split; [by apply (Hne encountered)..|lia].
    + destruct j as [|j]; [lia|]. simpl in Hq.
      assert (Hq' := Hq). apply list_elem_of_lookup_2, deduplicate_from_elem in Hq'.
      destruct Hq' as [Hqrest Hqnew].
      assert (q ≠ si) by set_solver.
      destruct i as [|i].
      * simpl in Hp. injection Hp as <-.
        destruct (first_index_elem q rest Hqrest) as [kj Hkj].
        exists 0%nat, (S kj). repeat split; [|by apply (Hne encountered)|lia].
        simpl. destruct (decide (si = si)); [reflexivity|contradiction].
      * simpl in Hp.
        assert (Hp' := Hp). apply list_elem_of_lookup_2, deduplicate_from_elem in Hp'.
        assert (p ≠ si) by set_solver.
        destruct (IH _ i j ltac:(lia) Hp Hq) as (ki & kj & Hki & Hkj & Hlt).
        exists (S ki), (S kj). repeat split; [by apply (Hne encountered)..|lia].
Qed.

(** C7: when the kubeconfig string splits into two or more paths, the
    precedence list holds every path of the string and nothing else, each
    once, in the order of their first occurrences, and the
    warn-if-all-missing flag is set, the explicit path being left as it
    was; otherwise the explicit path is the kubeconfig string and the
    precedence list and the flag are left as they were. *)
Theorem fillLoadingRules_paths (loadingRules : ClientConfigLoadingRules)
    (kubeConfig : string) :
  let fileList := filepath_SplitList kubeConfig in
  let filled := fillLoadingRulesFromKubeConfigSpec loadingRules kubeConfig in
  if decide (1 < length fileList)%nat then
    NoDup (Precedence filled)
    /\ (forall p, p ∈ Precedence filled <-> p ∈ fileList)
    /\ (forall i j p q,
          (i < j)%nat ->
          Precedence filled !! i = Some p ->
          Precedence filled !! j = Some q ->
          exists ki kj,
            first_index p fileList = Some ki /\ first_index q fileList = Some kj
            /\ (ki < kj)%nat)
    /\ WarnIfAllMissing filled = true
    /\ ExplicitPath filled = ExplicitPath loadingRules
  else
    ExplicitPath filled = kubeConfig
    /\ Precedence filled = Precedence loadingRules
    /\ WarnIfAllMissing filled = WarnIfAllMissing loadingRules.
Proof.
  intros fileList filled. subst filled. unfold fillLoadingRulesFromKubeConfigSpec.
  fold fileList. destruct (decide (1 < length fileList)%nat); simpl; [|auto].
  unfold deduplicate. repeat split.
  - apply deduplicate_from_NoDup.
  - intros Hp. apply deduplicate_from_elem in Hp. tauto.
  - intros Hp. apply deduplicate_from_elem. set_solver.
  - intros i j p q. apply deduplicate_from_order.
Qed.

(** The paths of a kubeconfig string are the stretches between its
    separators: one more than there are separators. *)
Lemma strings_Split_length (sep : ascii) (s : string) :
  length (strings_Split sep s)
  = S (length (filter (fun ch => ch = sep) (list_ascii_of_string s))).
Proof.
  induction s as [|ch rest IH]; [reflexivity|].
  simpl. destruct (Ascii.eqb_spec ch sep) as [->|Hne].
  - rewrite filter_cons_True by reflexivity. simpl. by rewrite IH.
  - rewrite filter_cons_False by assumption.
    destruct (strings_Split sep rest); simpl in *; [discriminate|assumption].
Qed.

(** ** Clean *)



























(** Whatever the resource clients answer, [Clean] never ends with an
    error. *)
Lemma Clean_never_returns_error c w (err : Error) :
  outcome_of (Clean c w) <> Normal (Some err).
Proof.
  unfold Clean, outcome_of, bind, log, ret.
  repeat match goal with
         | |- context [match ?m ?x with _ => _ end] =>
             lazymatch m with
             | for_range _ _ => destruct (m x) as [[[] ?] ?]
             | cleanNodes _ => destruct (m x) as [[[] ?] ?]
             | cleanIPAMConfig _ => destruct (m x) as [[[] ?] ?]
             end
         end; simpl; discriminate.
Qed.

End Properties.

(** * Runs on the small cluster *)

Lemma IPAM_keys_registered_iff_calico_ipam_witness :
  NewKubeClient Demo.external (Demo.config false) = Ok (Demo.client false)
  /\ isIPAMKeyType (TypeOfKey (BlockKey "10.244.1.0/26")) = true
  /\ (is_Some (getResourceClientFromKey (Demo.client false) (BlockKey "10.244.1.0/26"))
      <-> K8sUsePodCIDR (Demo.config false) = false).
Proof.
  assert (Hnew : NewKubeClient Demo.external (Demo.config false) = Ok (Demo.client false))
    by (vm_compute; reflexivity).
  split; [exact Hnew|]. split; [reflexivity|].
  exact (IPAM_keys_registered_iff_calico_ipam Demo.external (Demo.config false)
           (Demo.client false) (BlockKey "10.244.1.0/26") Hnew eq_refl).
Defined.

Lemma listHostConfig_tunnel_addresses_witness :
  CoreV1NodesList (ClientSet (Demo.client true)) 0%nat = (inr [Demo.nodeA; Demo.nodeB], 1%nat)
  /\ Forall (fun n => podCIDRWithout4ByteForm n = false) [Demo.nodeA; Demo.nodeB]
  /\ exists kvps,
       outcome_of (listHostConfig Demo.external (Demo.client true)
                     (mkHostConfigListOptions "" "IpInIpTunnelAddr") "12" 0%nat)
       = Normal (Ok (mkKVPairList kvps "12"))
       /\ mkKVPair (HostConfigKey "node-a" "IpInIpTunnelAddr") (VString "10.1.2.1") "" ∈ kvps
       /\ (forall kvp, kvp ∈ kvps -> KVKey kvp <> HostConfigKey "node-b" "IpInIpTunnelAddr").
Proof.
  assert (Hlist : CoreV1NodesList (ClientSet (Demo.client true)) 0%nat
                  = (inr [Demo.nodeA; Demo.nodeB], 1%nat)) by (vm_compute; reflexivity).
  assert (Hitems : Forall (fun n => podCIDRWithout4ByteForm n = false)
                     [Demo.nodeA; Demo.nodeB])
    by (repeat constructor).
  split; [exact Hlist|]. split; [exact Hitems|].
  destruct (listHostConfig_tunnel_addresses Demo.external (Demo.client true)
              (mkHostConfigListOptions "" "IpInIpTunnelAddr") "12" 0%nat
              [Demo.nodeA; Demo.nodeB] 1%nat
              (or_intror eq_refl) eq_refl Hlist Hitems)
    as (kvps & Hout & Hhas & Honly & _).
  exists kvps. split; [exact Hout|]. split.
  - apply (Hhas Demo.nodeA); [by left|reflexivity].
  - intros kvp Hin Hkey. destruct (Honly kvp Hin) as (n & Hn & Hcidr & Hkey').
    rewrite Hkey in Hkey'. injection Hkey' as Hname.
    apply elem_of_cons in Hn as [->|Hn]; [discriminate|].
    apply elem_of_cons in Hn as [->|Hn]; [by apply Hcidr|].
    by apply elem_of_nil in Hn.
Defined.

Lemma inline_kubeconfig_ignores_overrides_witness :
  KubeconfigInline Demo.inlineConfigSpec <> ""
  /\ CreateKubernetesClientset Demo.external Demo.inlineConfigSpec
     = CreateKubernetesClientset Demo.external (withoutOverrides Demo.inlineConfigSpec).
Proof.
  assert (Hinline : KubeconfigInline Demo.inlineConfigSpec <> "") by discriminate.
  split; [exact Hinline|].
  exact (inline_kubeconfig_ignores_overrides Demo.external Demo.inlineConfigSpec Hinline).
Defined.

(** With the inline kubeconfig the server, token and skip-verify overrides
    do not reach the configuration; through the loading rules they do. *)
Lemma inline_kubeconfig_drops_server_override :
  K8sAPIEndpoint Demo.inlineConfigSpec = "https://10.0.0.1:6443"
  /\ K8sAPIToken Demo.inlineConfigSpec = "token-1"
  /\ K8sInsecureSkipTLSVerify Demo.inlineConfigSpec = true
  /\ match CreateKubernetesClientset Demo.external Demo.inlineConfigSpec with
     | Ok (config, _) =>
         Host config = "https://inline.example:6443"
         /\ BearerToken config = "" /\ TLSInsecure config = false
     | Err _ => False
     end
  /\ match CreateKubernetesClientset Demo.external (Demo.config true) with
     | Ok (config, _) => Host config = K8sAPIEndpoint (Demo.config true)
     | Err _ => False
     end.
Proof. vm_compute. repeat split. Qed.


(** On the small cluster every delete and update is refused, and [Clean]
    still enters [List] 25 times, [Delete] 41 times (two entries for each
    of the twenty kinds, and the IPAM config), [DeleteKVP] 8 times and
    [Update] once, each reaching its resource client, and ends with a nil
    error. *)
Lemma Clean_with_every_write_refused :
  outcome_of (Clean (Demo.client false) 0%nat) = Normal None
  /\ world_of (Clean (Demo.client false) 0%nat) = 75%nat
  /\ length (list_attempts (events_of (Clean (Demo.client false) 0%nat))) = 25%nat
  /\ length (delete_attempts (events_of (Clean (Demo.client false) 0%nat))) = 41%nat
  /\ length (deletekvp_attempts (events_of (Clean (Demo.client false) 0%nat))) = 8%nat
  /\ update_attempts (events_of (Clean (Demo.client false) 0%nat))
     = [withoutBGP Demo.nodeEntry].
Proof. vm_compute. repeat split. Qed.

Lemma fillLoadingRules_paths_witness :
  fillLoadingRulesFromKubeConfigSpec emptyLoadingRules
    "/etc/kube/a.conf:/etc/kube/b.conf:/etc/kube/a.conf"
  = mkLoadingRules "" ["/etc/kube/a.conf"; "/etc/kube/b.conf"] true
  /\ NoDup (Precedence (fillLoadingRulesFromKubeConfigSpec emptyLoadingRules
                          "/etc/kube/a.conf:/etc/kube/b.conf:/etc/kube/a.conf"))
  /\ fillLoadingRulesFromKubeConfigSpec emptyLoadingRules "/etc/kube/a.conf"
     = mkLoadingRules "/etc/kube/a.conf" [] false.
Proof.
  split; [vm_compute; reflexivity|]. split; [|vm_compute; reflexivity].
  exact (proj1 (fillLoadingRules_paths emptyLoadingRules
                  "/etc/kube/a.conf:/etc/kube/b.conf:/etc/kube/a.conf")).
Defined.

(** * Further properties of the adapter *)

Section Coverage.

Context {W : Type}.

Implicit Types (c : KubeClient W) (w : W) (d kvp : KVPair) (k : Key) (l : ListInterface).

(** ** Registry *)

(** X1: a registration is seen by the lookups it is made for and by no
    other.  Under the generic key type, the keys and list queries of the
    registered kind resolve to the client, whatever their namespace and
    name, and every other key and list query resolves as before; the
    list-type argument plays no part.  Under any other key type, the keys
    of that type and the list queries of the given list type resolve to
    the client, generic list queries and everything else as before. *)
Theorem registerResourceClient_lookups c (keyType listType : option GoType)
    (resourceKind : string) (client : K8sResourceClient W) :
  let c' := registerResourceClient c keyType listType resourceKind client in
  if decide (keyType = resourceKeyType) then
    (forall key,
        getResourceClientFromKey c' key
        = match key with
          | ResourceKey Kind _ _ =>
              if decide (Kind = resourceKind) then Some client
              else getResourceClientFromKey c key
          | _ => getResourceClientFromKey c key
          end)
    /\ (forall l,
          getResourceClientFromList c' l
          = match l with
            | ResourceListOptions Kind _ _ =>
                if decide (Kind = resourceKind) then Some client
                else getResourceClientFromList c l
            | _ => getResourceClientFromList c l
            end)
  else
    (forall key,
        getResourceClientFromKey c' key
        = if decide (TypeOfKey key = keyType) then Some client
          else getResourceClientFromKey c key)
    /\ (forall l,
          getResourceClientFromList c' l
          = match l with
            | ResourceListOptions _ _ _ => getResourceClientFromList c l
            | _ =>
                if decide (TypeOfList l = listType) then Some client
                else getResourceClientFromList c l
            end).
Proof.
  intros c'. subst c'. unfold registerResourceClient.
  destruct (decide (keyType = resourceKeyType)) as [->|Hnarrow]; split.
  - intros key. rewrite !getResourceClientFromKey_paths.
    destruct key; simpl; try reflexivity.
    destruct (decide (Kind = resourceKind)) as [->|Hne].
    + apply lookup_insert_eq.
    + by apply lookup_insert_ne.
  - intros l. rewrite !getResourceClientFromList_paths.
    destruct l; simpl; try reflexivity.
    destruct (decide (Kind = resourceKind)) as [->|Hne].
    + apply lookup_insert_eq.
    + by apply lookup_insert_ne.
  - intros key. rewrite !getResourceClientFromKey_paths.
    destruct (decide (TypeOfKey key = keyType)) as [<-|Hne].
    + destruct key; simpl; try apply lookup_insert_eq.
      exfalso. by apply Hnarrow.
    + destruct key; simpl; try reflexivity; by apply lookup_insert_ne.
  - intros l. rewrite !getResourceClientFromList_paths.
    destruct l; simpl; try reflexivity;
      (case_decide as Hl;
       [ rewrite <- Hl; apply lookup_insert_eq
       | apply lookup_insert_ne; intros Heq; apply Hl; by rewrite <- Heq ]).
Qed.

Lemma registerIPAM_kind_table (ext : External W) cs crd c :
  clientsByResourceKind (registerIPAM ext cs crd c) = clientsByResourceKind c.
Proof. reflexivity. Qed.

Lemma registerResourceClient_generic_dom c (listType : option GoType)
    (resourceKind : string) (client : K8sResourceClient W) :
  dom (clientsByResourceKind
         (registerResourceClient c (Some TResourceKey) listType resourceKind client))
  = {[resourceKind]} ∪ dom (clientsByResourceKind c).
Proof. apply dom_insert_L. Qed.

Lemma registerKinds_dom (ext : External W) ca cs crd pol c :
  clientsByResourceKind c = ∅ ->
  dom (clientsByResourceKind (registerKinds ext ca cs crd pol c))
  = list_to_set registeredKinds.
Proof.
  intros Hempty. unfold registerKinds. cbv zeta.
  rewrite !registerResourceClient_generic_dom, Hempty, dom_empty_L.
  unfold registeredKinds. cbn [list_to_set].
  apply set_eq. intros kind.
  rewrite !elem_of_union, !elem_of_singleton, elem_of_empty. tauto.
Qed.

Lemma NewKubeClient_tables (ext : External W) ca c :
  NewKubeClient ext ca = Ok c ->
  exists cs crd pol,
    let empty := mkKubeClient cs crd pol (K8sDisableNodePoll ca) ∅ ∅ ∅ in
    let kinds := registerKinds ext ca cs crd pol empty in
    c = if K8sUsePodCIDR ca then kinds else registerIPAM ext cs crd kinds.
Proof.
  unfold NewKubeClient.
  destruct (CreateKubernetesClientset ext ca) as [[config cs]|]; [|discriminate].
  destruct (buildCRDClientV1 ext config) as [|crd]; [discriminate|].
  destruct (buildK8SAdminPolicyClient ext config) as [|pol]; [discriminate|].
  intros [= <-]. exists cs, crd, pol.
  destruct (K8sUsePodCIDR ca); reflexivity.
Qed.

Lemma NewKubeClient_kind_lookup (ext : External W) ca c (kind : string) :
  NewKubeClient ext ca = Ok c ->
  is_Some (clientsByResourceKind c !! kind) <-> kind ∈ registeredKinds.
Proof.
  intros Hnew.
  destruct (NewKubeClient_tables ext ca c Hnew) as (cs & crd & pol & Hc).
  assert (Hdom : dom (clientsByResourceKind c) = list_to_set registeredKinds).
  { rewrite Hc. destruct (K8sUsePodCIDR ca);
      rewrite ?registerIPAM_kind_table; by apply registerKinds_dom. }
  rewrite <- elem_of_dom, Hdom. apply elem_of_list_to_set.
Qed.

(** X2: whatever the IPAM mode, the adapter [NewKubeClient] builds has a
    resource client for a generic key or list query exactly when its kind
    is one of the 28 registered kinds.  The kinds IPAMBlock and IPAMHandle
    are not among them: the kind passed with a narrow registration is not
    stored, and these resources are not addressable by kind. *)
Theorem NewKubeClient_kinds (ext : External W) ca c :
  NewKubeClient ext ca = Ok c ->
  (forall kind namespace name,
      is_Some (getResourceClientFromKey c (ResourceKey kind namespace name))
      <-> kind ∈ registeredKinds)
  /\ (forall kind namespace name,
        is_Some (getResourceClientFromList c (ResourceListOptions kind namespace name))
        <-> kind ∈ registeredKinds)
  /\ (forall namespace name,
        getResourceClientFromKey c (ResourceKey KindIPAMBlock namespace name) = None
        /\ getResourceClientFromKey c (ResourceKey KindIPAMHandle namespace name) = None).
Proof.
  intros Hnew.
  pose proof (fun kind => NewKubeClient_kind_lookup ext ca c kind Hnew) as Hkind.
  split; [|split].
  - intros kind namespace name. apply Hkind.
  - intros kind namespace name. apply Hkind.
  - intros namespace name.
    split; apply eq_None_not_Some; rewrite getResourceClientFromKey_paths, Hkind;
      unfold registeredKinds; rewrite !elem_of_cons, elem_of_nil;
      intros Hin; repeat destruct Hin as [Hin|Hin]; try discriminate; exact Hin.
Qed.

Lemma registerIPAM_list_table (ext : External W) cs crd c :
  clientsByListType (registerIPAM ext cs crd c)
  = <[None := resources_New ext "NewIPAMConfigClient" (WithCRD cs crd)]>
      (<[Some TIPAMHandleListOptions :=
           resources_New ext "NewIPAMHandleClient" (WithCRD cs crd)]>
         (<[Some TBlockListOptions := resources_New ext "NewIPAMBlockClient" (WithCRD cs crd)]>
            (<[Some TBlockAffinityListOptions :=
                 resources_New ext "NewBlockAffinityClient" (WithCRD cs crd)]>
               (clientsByListType c)))).
Proof. reflexivity. Qed.

Lemma NewKubeClient_narrow_tables (ext : External W) ca c :
  NewKubeClient ext ca = Ok c ->
  exists cs crd,
    let empty := mkKubeClient cs crd (k8sAdminPolicyClient c) (disableNodePoll c) ∅ ∅ ∅ in
    clientsByKeyType c
    = (if K8sUsePodCIDR ca then ∅ else clientsByKeyType (registerIPAM ext cs crd empty))
    /\ clientsByListType c
       = (if K8sUsePodCIDR ca then ∅ else clientsByListType (registerIPAM ext cs crd empty)).
Proof.
  intros Hnew.
  destruct (NewKubeClient_tables ext ca c Hnew) as (cs & crd & pol & Hc).
  exists cs, crd. rewrite Hc. destruct (K8sUsePodCIDR ca); split; reflexivity.
Qed.

(** X3: in the adapter [NewKubeClient] builds, a list query that is not
    generic has a resource client exactly when Calico IPAM is in use
    ([K8sUsePodCIDR] false) and the query is a block, block-affinity or
    IPAM-handle list, or the nil query; a host-config list and the list
    types of other packages have none in either mode. *)
Theorem NewKubeClient_list_types (ext : External W) ca c l :
  NewKubeClient ext ca = Ok c ->
  isIPAMQuery l = true ->
  (is_Some (getResourceClientFromList c l)
   <-> K8sUsePodCIDR ca = false /\ isIPAMListType (TypeOfList l) = true).
Proof.
  intros Hnew Hl.
  destruct (NewKubeClient_narrow_tables ext ca c Hnew) as (cs & crd & _ & Htable).
  rewrite getResourceClientFromList_paths.
  destruct (K8sUsePodCIDR ca).
  - destruct l; simpl in Hl; try discriminate;
      rewrite Htable, lookup_empty; (split; [intros [? ?]|intros [? ?]]); discriminate.
  - rewrite registerIPAM_list_table in Htable.
    destruct l; simpl in Hl; try discriminate; rewrite Htable; simpl.
    + rewrite lookup_insert_eq. split; eauto.
    + rewrite !lookup_insert_ne, lookup_insert_eq by discriminate. split; eauto.
    + rewrite !lookup_insert_ne, lookup_insert_eq by discriminate. split; eauto.
    + rewrite lookup_insert_ne, lookup_insert_eq by discriminate. split; eauto.
    + rewrite !lookup_insert_ne, lookup_empty by discriminate.
      split; [intros [? ?]|intros [? ?]]; discriminate.
    + rewrite !lookup_insert_ne, lookup_empty by discriminate.
      split; [intros [? ?]|intros [? ?]]; discriminate.
Qed.

(** C9: the readiness helper and the way to it.  [getReadyStatus] answers
    the readiness key with a pair whose value is true, whatever the
    revision, in the state it was asked in and without any call on a
    resource client or on the clientset.  No operation of the adapter
    reaches it: in the adapter [NewKubeClient] builds nothing is registered
    for the readiness key, so requesting it through [Get] ends with the
    not-supported error that names the key and the operation Get, in the
    state it was called in and also without any such call. *)
Theorem getReadyStatus_not_reached_by_Get (ext : External W) ca c (k : ReadyFlagKeyStruct)
    (revision : string) w :
  NewKubeClient ext ca = Ok c ->
  getReadyStatus c k revision w
  = (Normal (Ok (mkKVPair (KeyOfReadyFlagKey k) (VBool true) "")), w, [])
  /\ getResourceClientFromKey c (KeyOfReadyFlagKey k) = None
  /\ outcome_of (Get c (KeyOfReadyFlagKey k) revision w)
     = Normal (Err (ErrorOperationNotSupported (IdKey (KeyOfReadyFlagKey k)) "Get"))
  /\ world_of (Get c (KeyOfReadyFlagKey k) revision w) = w
  /\ handler_calls (events_of (Get c (KeyOfReadyFlagKey k) revision w)) = []
  /\ nodes_calls (events_of (Get c (KeyOfReadyFlagKey k) revision w)) = [].
Proof.
  intros Hnew. split; [apply getReadyStatus_true|].
  destruct (NewKubeClient_narrow_tables ext ca c Hnew) as (cs & crd & Hkeys & _).
  assert (Hnone : getResourceClientFromKey c (KeyOfReadyFlagKey k) = None).
  { rewrite getResourceClientFromKey_paths. simpl. rewrite Hkeys.
    destruct (K8sUsePodCIDR ca); [apply lookup_empty|].
    rewrite registerIPAM_key_table. simpl.
    by rewrite !lookup_insert_ne, lookup_empty by discriminate. }
  split; [exact Hnone|].
  destruct (Get_not_supported c (KeyOfReadyFlagKey k) revision w Hnone)
    as (Hout & Hworld & Hcalls).
  split; [exact Hout|]. split; [exact Hworld|]. split; [exact Hcalls|].
  unfold Get. unfold_run. rewrite Hnone. reflexivity.
Qed.

(** X4: in the adapter [NewKubeClient] builds, a key that is neither
    generic nor of one of the four IPAM key types has no resource client
    in either mode.  In particular the readiness key and the host-config
    keys and lists are not routed: [Get] on the readiness key and [List]
    on a host-config list end with the not-supported error, in the state
    they were called in; [getReadyStatus] and [listHostConfig] are not
    reached through them. *)
Theorem NewKubeClient_unrouted (ext : External W) ca c :
  NewKubeClient ext ca = Ok c ->
  (forall key,
      TypeOfKey key <> resourceKeyType ->
      isIPAMKeyType (TypeOfKey key) = false ->
      getResourceClientFromKey c key = None)
  /\ (forall revision w,
        outcome_of (Get c ReadyFlagKey revision w)
        = Normal (Err (ErrorOperationNotSupported (IdKey ReadyFlagKey) "Get"))
        /\ world_of (Get c ReadyFlagKey revision w) = w)
  /\ (forall hostname name revision w,
        outcome_of (List c (HostConfigListOptions hostname name) revision w)
        = Normal (Err (ErrorOperationNotSupported
                         (IdList (HostConfigListOptions hostname name)) "List"))
        /\ world_of (List c (HostConfigListOptions hostname name) revision w) = w).
Proof.
  intros Hnew.
  destruct (NewKubeClient_narrow_tables ext ca c Hnew) as (cs & crd & Hkeys & Hlists).
  assert (Hkey : forall key,
             TypeOfKey key <> resourceKeyType ->
             isIPAMKeyType (TypeOfKey key) = false ->
             getResourceClientFromKey c key = None).
  { intros key Hgeneric Hipam. rewrite getResourceClientFromKey_paths.
    destruct key; simpl in Hipam; try discriminate;
      try (exfalso; by apply Hgeneric);
      rewrite Hkeys; destruct (K8sUsePodCIDR ca);
      rewrite ?lookup_empty, ?registerIPAM_key_table; try reflexivity;
      simpl; by rewrite !lookup_insert_ne, lookup_empty by discriminate. }
  split; [exact Hkey|]. split.
  - intros revision w.
    destruct (Get_not_supported c ReadyFlagKey revision w) as (Hout & Hworld & _);
      [by apply Hkey|]. by split.
  - intros hostname name revision w.
    destruct (List_not_supported c (HostConfigListOptions hostname name) revision w)
      as (Hout & Hworld & _); [|by split].
    rewrite getResourceClientFromList_paths. simpl. rewrite Hlists.
    destruct (K8sUsePodCIDR ca); rewrite ?lookup_empty, ?registerIPAM_list_table;
      reflexivity.
Qed.

(** X5: [Clean] and the registry agree.  In the adapter [NewKubeClient]
    builds, each of the twenty kinds [Clean] lists, and the node kind, has
    a resource client; the IPAM lists and the IPAM-config key have one
    when Calico IPAM is in use, and none otherwise, so that with
    [K8sUsePodCIDR] the IPAM steps of [Clean] end as not supported. *)
Theorem Clean_queries_registered (ext : External W) ca c :
  NewKubeClient ext ca = Ok c ->
  Forall (fun kind => is_Some (getResourceClientFromList c (ResourceListOptions kind "" "")))
    (cleanKinds ++ [KindNode])
  /\ (if K8sUsePodCIDR ca then
        Forall (fun li => getResourceClientFromList c li = None) cleanIPAMLists
        /\ getResourceClientFromKey c IPAMConfigKey = None
      else
        Forall (fun li => is_Some (getResourceClientFromList c li)) cleanIPAMLists
        /\ is_Some (getResourceClientFromKey c IPAMConfigKey)).
Proof.
  intros Hnew.
  pose proof (fun kind => NewKubeClient_kind_lookup ext ca c kind Hnew) as Hkind.
  destruct (NewKubeClient_narrow_tables ext ca c Hnew) as (cs & crd & Hkeys & Hlists).
  split.
  - apply Forall_forall. intros kind Hin.
    rewrite getResourceClientFromList_paths. apply Hkind.
    unfold cleanKinds in Hin. simpl in Hin. unfold registeredKinds.
    rewrite !elem_of_cons, elem_of_nil in Hin. rewrite !elem_of_cons.
    repeat destruct Hin as [->|Hin]; tauto.
  - destruct (K8sUsePodCIDR ca).
    + split.
      * repeat constructor; rewrite getResourceClientFromList_paths; simpl;
          by rewrite Hlists, lookup_empty.
      * rewrite getResourceClientFromKey_paths. simpl. by rewrite Hkeys, lookup_empty.
    + rewrite registerIPAM_list_table in Hlists. rewrite registerIPAM_key_table in Hkeys.
      split.
      * repeat constructor; rewrite getResourceClientFromList_paths; simpl; rewrite Hlists.
        -- rewrite !lookup_insert_ne, lookup_insert_eq by discriminate. eauto.
        -- rewrite !lookup_insert_ne, lookup_insert_eq by discriminate. eauto.
        -- rewrite !lookup_insert_ne, lookup_insert_eq by discriminate. eauto.
        -- rewrite lookup_insert_ne, lookup_insert_eq by discriminate. eauto.
      * rewrite getResourceClientFromKey_paths. simpl. rewrite Hkeys.
        rewrite lookup_insert_eq. eauto.
Qed.

(** ** Construction *)

(** X6: an adapter that [NewKubeClient] returns holds the clientset that
    [CreateKubernetesClientset] built and the two REST clients built from
    the configuration that came with it: the admin-policy client from the
    configuration as it is, the CRD client from a copy set to the API
    path /apis, the group crd.projectcalico.org, version v1 and JSON,
    which keeps the host, the credentials, the QPS and the burst.  The
    node-poll flag is the configured one. *)
Theorem NewKubeClient_components (ext : External W) ca c :
  NewKubeClient ext ca = Ok c ->
  exists config,
    CreateKubernetesClientset ext ca = Ok (config, ClientSet c)
    /\ adminpolicyclient_NewForConfig ext config = inr (k8sAdminPolicyClient c)
    /\ (exists crdConfig,
          rest_RESTClientFor ext crdConfig = inr (crdClientV1 c)
          /\ APIPath crdConfig = "/apis"
          /\ GroupVersion crdConfig = Some ("crd.projectcalico.org", "v1")
          /\ ContentType crdConfig = ContentTypeJSON
          /\ Host crdConfig = Host config
          /\ BearerToken crdConfig = BearerToken config
          /\ TLSInsecure crdConfig = TLSInsecure config
          /\ QPS crdConfig = QPS config
          /\ Burst crdConfig = Burst config)
    /\ disableNodePoll c = K8sDisableNodePoll ca.
Proof.
  unfold NewKubeClient.
  destruct (CreateKubernetesClientset ext ca) as [[config cs]|]; [|discriminate].
  destruct (buildCRDClientV1 ext config) as [|crd] eqn:Hcrd; [discriminate|].
  destruct (buildK8SAdminPolicyClient ext config) as [|pol] eqn:Hpol; [discriminate|].
  intros [= <-]. exists config.
  assert (Hfields :
            forall kinds : KubeClient W,
              let built := if negb (K8sUsePodCIDR ca) then registerIPAM ext cs crd kinds
                           else kinds in
              ClientSet built = ClientSet kinds
              /\ crdClientV1 built = crdClientV1 kinds
              /\ k8sAdminPolicyClient built = k8sAdminPolicyClient kinds
              /\ disableNodePoll built = disableNodePoll kinds).
  { intros kinds. destruct (K8sUsePodCIDR ca); repeat split. }
  destruct (Hfields (registerKinds ext ca cs crd pol
                       (mkKubeClient cs crd pol (K8sDisableNodePoll ca) ∅ ∅ ∅)))
    as (-> & -> & -> & ->).
  split; [reflexivity|]. split; [exact Hpol|]. split; [|reflexivity].
  exists (forCRD config). repeat split. exact Hcrd.
Qed.

(** X7: when [NewKubeClient] fails, it fails with the error of
    [CreateKubernetesClientset] as it is, or, the clientset being built,
    with the error of the CRD client build or else of the admin-policy
    client build, wrapped with its message; the CRD client is built
    first. *)
Theorem NewKubeClient_failure (ext : External W) ca (e : Error) :
  NewKubeClient ext ca = Err e ->
  CreateKubernetesClientset ext ca = Err e
  \/ exists config cs,
       CreateKubernetesClientset ext ca = Ok (config, cs)
       /\ ((exists err,
              rest_RESTClientFor ext (forCRD config) = inl err
              /\ e = ErrorWrapped "Failed to build V1 CRD client: %v" err)
           \/ (exists crd err,
                 rest_RESTClientFor ext (forCRD config) = inr crd
                 /\ adminpolicyclient_NewForConfig ext config = inl err
                 /\ e = ErrorWrapped "Failed to build K8S Admin Network Policy client: %v"
                          err)).
Proof.
  unfold NewKubeClient, buildCRDClientV1, buildK8SAdminPolicyClient.
  destruct (CreateKubernetesClientset ext ca) as [[config cs]|e0]; [|intros [= <-]; by left].
  intros Hnew. right. exists config, cs. split; [reflexivity|].
  destruct (rest_RESTClientFor ext (forCRD config)) as [err|crd].
  - left. exists err. injection Hnew as <-. by split.
  - right. destruct (adminpolicyclient_NewForConfig ext config) as [err|pol];
      [|discriminate].
    exists crd, err. injection Hnew as <-. by repeat split.
Qed.

(** X8: the configuration [CreateKubernetesClientset] returns is the one
    the clientset was built from.  Its burst is 100, it asks for protobuf
    and accepts protobuf and JSON, and its QPS is the configured one
    unless that is zero; everything else, and the QPS when none is
    configured, is as loaded, from the inline kubeconfig when there is one
    and otherwise through the loading rules and overrides of the
    configuration. *)
Theorem CreateKubernetesClientset_config (ext : External W) ca (config : RestConfig)
    (cs : Clientset W) :
  CreateKubernetesClientset ext ca = Ok (config, cs) ->
  kubernetes_NewForConfig ext config = inr cs
  /\ Burst config = 100%Z
  /\ ContentType config = ContentTypeProtobuf
  /\ AcceptContentTypes config = "application/vnd.kubernetes.protobuf,application/json"
  /\ exists loaded,
       (if decide (KubeconfigInline ca ≠ "") then
          exists clientConfig,
            NewClientConfigFromBytes ext (KubeconfigInline ca) = inr clientConfig
            /\ ClientConfigOf ext clientConfig = inr loaded
        else
          NewNonInteractiveDeferredLoadingClientConfig ext (loadingRulesOf ca)
            (configOverridesOf ca) = inr loaded)
       /\ QPS config = (if Qeq_bool (K8sClientQPS ca) 0 then QPS loaded else K8sClientQPS ca)
       /\ Host config = Host loaded
       /\ APIPath config = APIPath loaded
       /\ GroupVersion config = GroupVersion loaded
       /\ NegotiatedSerializer config = NegotiatedSerializer loaded
       /\ BearerToken config = BearerToken loaded
       /\ TLSInsecure config = TLSInsecure loaded
       /\ TLSCertFile config = TLSCertFile loaded
       /\ TLSKeyFile config = TLSKeyFile loaded
       /\ TLSCAFile config = TLSCAFile loaded.
Proof.
  unfold CreateKubernetesClientset.
  set (loaded :=
         if decide (KubeconfigInline ca ≠ "") then
           match NewClientConfigFromBytes ext (KubeconfigInline ca) with
           | inl err => inl err
           | inr clientConfig => ClientConfigOf ext clientConfig
           end
         else NewNonInteractiveDeferredLoadingClientConfig ext (loadingRulesOf ca)
                (configOverridesOf ca)).
  cbv zeta. destruct loaded as [err|cfg] eqn:Hloaded; [discriminate|].
  match goal with
  | |- match kubernetes_NewForConfig ext ?final with _ => _ end = _ -> _ =>
      destruct (kubernetes_NewForConfig ext final) as [err|cs'] eqn:Hbuild; [discriminate|]
  end.
  intros [= <- <-]. split; [exact Hbuild|].
  assert (Hfrom :
            if decide (KubeconfigInline ca ≠ "") then
              exists clientConfig,
                NewClientConfigFromBytes ext (KubeconfigInline ca) = inr clientConfig
                /\ ClientConfigOf ext clientConfig = inr cfg
            else
              NewNonInteractiveDeferredLoadingClientConfig ext (loadingRulesOf ca)
                (configOverridesOf ca) = inr cfg).
  { subst loaded. destruct (decide (KubeconfigInline ca ≠ "")); [|exact Hloaded].
    destruct (NewClientConfigFromBytes ext (KubeconfigInline ca)) as [|clientConfig];
      [discriminate|]. eauto. }
  destruct (Qeq_bool (K8sClientQPS ca) 0); simpl;
    (split; [reflexivity|]; split; [reflexivity|]; split; [reflexivity|];
     exists cfg; split; [exact Hfrom|]; repeat split).
Qed.

(** X25: whenever [CreateKubernetesClientset] fails, its error is the
    translation, with a nil identifier, of an error of the client
    libraries: of parsing the inline kubeconfig or resolving it, when there
    is one; of loading through the rules and overrides, when there is
    none; or of building the clientset from the loaded configuration, its
    burst set to 100. *)
Theorem CreateKubernetesClientset_failure (ext : External W) ca (e : Error) :
  CreateKubernetesClientset ext ca = Err e ->
  exists err,
    e = K8sErrorToCalico ext err IdNil
    /\ ((KubeconfigInline ca <> ""
         /\ (NewClientConfigFromBytes ext (KubeconfigInline ca) = inl err
             \/ exists clientConfig,
                  NewClientConfigFromBytes ext (KubeconfigInline ca) = inr clientConfig
                  /\ ClientConfigOf ext clientConfig = inl err))
        \/ (KubeconfigInline ca = ""
            /\ NewNonInteractiveDeferredLoadingClientConfig ext (loadingRulesOf ca)
                 (configOverridesOf ca) = inl err)
        \/ (exists config,
              kubernetes_NewForConfig ext config = inl err /\ Burst config = 100%Z)).
Proof.
  unfold CreateKubernetesClientset.
  destruct (decide (KubeconfigInline ca ≠ "")) as [Hinline|Hnone].
  - destruct (NewClientConfigFromBytes ext (KubeconfigInline ca)) as [err|clientConfig].
    + intros [= <-]. exists err. split; [reflexivity|]. left. split; [exact Hinline|by left].
    + destruct (ClientConfigOf ext clientConfig) as [err|loaded] eqn:Hresolve.
      * intros [= <-]. exists err. split; [reflexivity|]. left. split; [exact Hinline|].
        right. by exists clientConfig.
      * cbv zeta.
        match goal with
        | |- match kubernetes_NewForConfig ext ?final with _ => _ end = _ -> _ =>
            destruct (kubernetes_NewForConfig ext final) as [err|cs] eqn:Hbuild;
              [|discriminate];
              intros [= <-]; exists err; split; [reflexivity|]; right; right;
              exists final; split; [exact Hbuild|reflexivity]
        end.
  - apply dec_stable in Hnone.
    destruct (NewNonInteractiveDeferredLoadingClientConfig ext (loadingRulesOf ca)
                (configOverridesOf ca)) as [err|loaded] eqn:Hload.
    + intros [= <-]. exists err. split; [reflexivity|]. right. left. by split.
    + cbv zeta.
      match goal with
      | |- match kubernetes_NewForConfig ext ?final with _ => _ end = _ -> _ =>
          destruct (kubernetes_NewForConfig ext final) as [err|cs] eqn:Hbuild;
            [|discriminate];
            intros [= <-]; exists err; split; [reflexivity|]; right; right;
            exists final; split; [exact Hbuild|reflexivity]
      end.
Qed.

(** X9: an inline kubeconfig takes precedence over everything else in the
    configuration: two configurations with the same non-empty inline
    kubeconfig and the same client QPS give the same result, whatever
    their kubeconfig paths, overrides and flags. *)
Theorem inline_kubeconfig_takes_precedence (ext : External W) (ca ca' : CalicoAPIConfigSpec) :
  KubeconfigInline ca <> "" ->
  KubeconfigInline ca' = KubeconfigInline ca ->
  K8sClientQPS ca' = K8sClientQPS ca ->
  CreateKubernetesClientset ext ca' = CreateKubernetesClientset ext ca.
Proof.
  intros Hinline Hsame Hqps. unfold CreateKubernetesClientset.
  rewrite Hsame, Hqps.
  destruct (decide (KubeconfigInline ca ≠ "")); [reflexivity|contradiction].
Qed.

(** X10: the overrides built from a configuration are its six override
    values and its skip-verify flag, field by field: guarding each
    assignment by "not empty" changes nothing, an override that is empty
    leaves its field empty. *)
Theorem configOverridesOf_closed_form (ca : CalicoAPIConfigSpec) :
  configOverridesOf ca
  = mkConfigOverrides (K8sCurrentContext ca) (K8sAPIEndpoint ca) (K8sCAFile ca)
      (K8sInsecureSkipTLSVerify ca) (K8sCertFile ca) (K8sKeyFile ca) (K8sAPIToken ca).
Proof.
  pose proof (configOverridesOf_fields ca) as Hfields. cbv zeta in Hfields.
  destruct (configOverridesOf ca) as [ctx server caf skip cert key token].
  simpl in Hfields. destruct Hfields as (-> & -> & -> & -> & -> & -> & ->).
  reflexivity.
Qed.

(** ** Kubeconfig paths *)

Lemma deduplicate_from_NoDup_id (s : list string) (encountered : gset string) :
  NoDup s -> (forall p, p ∈ s -> p ∉ encountered) ->
  deduplicate_from s encountered [] = s.
Proof.
  revert encountered. induction s as [|si rest IH]; intros encountered Hs Hfresh.
  - reflexivity.
  - rewrite deduplicate_from_cons. apply NoDup_cons in Hs as [Hsi Hrest].
    destruct (decide (si ∈ encountered)) as [Hin|_].
    + exfalso. apply (Hfresh si); [by left|exact Hin].
    + f_equal. apply IH; [exact Hrest|].
      intros p Hp. rewrite elem_of_union, elem_of_singleton. intros [->|Hin].
      * contradiction.
      * apply (Hfresh p); [by right|exact Hin].
Qed.

Lemma deduplicate_from_length (s : list string) (encountered : gset string) :
  (length (deduplicate_from s encountered []) <= length s)%nat.
Proof.
  revert encountered. induction s as [|si rest IH]; intros encountered; [reflexivity|].
  rewrite deduplicate_from_cons. destruct (decide (si ∈ encountered)); simpl.
  - specialize (IH encountered). lia.
  - specialize (IH ({[si]} ∪ encountered)). lia.
Qed.

(** X11: [deduplicate] leaves a list as it is exactly when the list has no
    duplicates; it never makes a list longer, and deduplicating twice
    gives what deduplicating once gives. *)
Theorem deduplicate_fixpoint (s : list string) :
  (deduplicate s = s <-> NoDup s)
  /\ (length (deduplicate s) <= length s)%nat
  /\ deduplicate (deduplicate s) = deduplicate s.
Proof.
  unfold deduplicate. split; [|split].
  - split.
    + intros <-. apply deduplicate_from_NoDup.
    + intros Hs. apply deduplicate_from_NoDup_id; [exact Hs|]. intros p _. set_solver.
  - apply deduplicate_from_length.
  - apply deduplicate_from_NoDup_id; [apply deduplicate_from_NoDup|].
    intros p _. set_solver.
Qed.

Lemma deduplicate_from_filter (s : list string) (hidden encountered : gset string) :
  deduplicate_from s (hidden ∪ encountered) []
  = filter (fun p => p ∉ hidden) (deduplicate_from s encountered []).
Proof.
  revert encountered. induction s as [|si rest IH]; intros encountered; [reflexivity|].
  rewrite !deduplicate_from_cons.
  destruct (decide (si ∈ encountered)) as [Hin|Hnotin].
  - destruct (decide (si ∈ hidden ∪ encountered)) as [_|Hn]; [apply IH|].
    exfalso. apply Hn. set_solver.
  - destruct (decide (si ∈ hidden)) as [Hhid|Hvis].
    + destruct (decide (si ∈ hidden ∪ encountered)) as [_|Hn]; [|exfalso; set_solver].
      rewrite filter_cons_False by (intros Hn; by apply Hn).
      rewrite <- IH. f_equal. set_solver.
    + destruct (decide (si ∈ hidden ∪ encountered)) as [Hn|_]; [exfalso; set_solver|].
      rewrite filter_cons_True by exact Hvis.
      f_equal. rewrite <- IH. f_equal. set_solver.
Qed.

Lemma deduplicate_from_app (s1 s2 : list string) (encountered : gset string) :
  deduplicate_from (s1 ++ s2) encountered []
  = deduplicate_from s1 encountered []
    ++ deduplicate_from s2 (list_to_set s1 ∪ encountered) [].
Proof.
  revert encountered. induction s1 as [|si rest IH]; intros encountered.
  - simpl. f_equal. set_solver.
  - rewrite <- app_comm_cons, !deduplicate_from_cons.
    destruct (decide (si ∈ encountered)) as [Hin|Hnotin].
    + rewrite IH. do 2 f_equal. set_solver.
    + rewrite IH. simpl. do 3 f_equal. set_solver.
Qed.

(** X12: paths added at the end of a kubeconfig list come after the ones
    already there: the deduplicated list of [s1 ++ s2] is the deduplicated
    list of [s1] followed by the deduplicated paths of [s2] that do not
    occur in [s1]. *)
Theorem deduplicate_app (s1 s2 : list string) :
  deduplicate (s1 ++ s2)
  = deduplicate s1 ++ filter (fun p => p ∉ s1) (deduplicate s2).
Proof.
  unfold deduplicate. rewrite deduplicate_from_app. f_equal.
  rewrite deduplicate_from_filter.
  apply list_filter_iff. intros p. apply not_iff_compat, elem_of_list_to_set.
Qed.

(** ** Dispatch *)

(** X13: with a resource client registered for the key, [Create],
    [Update], [DeleteKVP], [Delete] and [Get] hand their arguments to the
    method of the same name of that client, once, and return its answer
    and the state it leaves; [Delete] passes a nil UID.  No other method
    is called. *)
Theorem dispatch_by_key_delegates c (client : K8sResourceClient W) (key : Key) :
  getResourceClientFromKey c key = Some client ->
  forall (value : Value) (revision : string) w,
    let d := mkKVPair key value revision in
    (outcome_of (Create c d w) = Normal (rcCreate client d w).1
     /\ world_of (Create c d w) = (rcCreate client d w).2
     /\ handler_calls (events_of (Create c d w)) = [HCreate d])
    /\ (outcome_of (Update c d w) = Normal (rcUpdate client d w).1
        /\ world_of (Update c d w) = (rcUpdate client d w).2
        /\ handler_calls (events_of (Update c d w)) = [HUpdate d])
    /\ (outcome_of (DeleteKVP c d w) = Normal (rcDeleteKVP client d w).1
        /\ world_of (DeleteKVP c d w) = (rcDeleteKVP client d w).2
        /\ handler_calls (events_of (DeleteKVP c d w)) = [HDeleteKVP d])
    /\ (outcome_of (Delete c key revision w) = Normal (rcDelete client key revision None w).1
        /\ world_of (Delete c key revision w) = (rcDelete client key revision None w).2
        /\ handler_calls (events_of (Delete c key revision w)) = [HDelete key revision None])
    /\ (outcome_of (Get c key revision w) = Normal (rcGet client key revision w).1
        /\ world_of (Get c key revision w) = (rcGet client key revision w).2
        /\ handler_calls (events_of (Get c key revision w)) = [HGet key revision]).
Proof.
  intros Hclient value revision w d. subst d.
  unfold Create, Update, DeleteKVP, Delete, Get. unfold_run. simpl. rewrite Hclient.
  destruct (rcCreate client _ w) as [r1 w1], (rcUpdate client _ w) as [r2 w2],
    (rcDeleteKVP client _ w) as [r3 w3], (rcDelete client key revision None w) as [r4 w4],
    (rcGet client key revision w) as [r5 w5].
  repeat split.
Qed.

(** X14: with a resource client registered for the list query, [List] and
    [Watch] hand their arguments to that client, once, and return its
    answer and the state it leaves. *)
Theorem dispatch_by_list_delegates c (client : K8sResourceClient W) l :
  getResourceClientFromList c l = Some client ->
  forall (revision : string) (options : WatchOptions) w,
    (outcome_of (List c l revision w) = Normal (rcList client l revision w).1
     /\ world_of (List c l revision w) = (rcList client l revision w).2
     /\ handler_calls (events_of (List c l revision w)) = [HList l revision])
    /\ (outcome_of (Watch c l options w) = Normal (rcWatch client l options w).1
        /\ world_of (Watch c l options w) = (rcWatch client l options w).2
        /\ handler_calls (events_of (Watch c l options w)) = [HWatch l options]).
Proof.
  intros Hclient revision options w.
  unfold List, Watch. unfold_run. simpl. rewrite Hclient.
  destruct (rcList client l revision w) as [r1 w1], (rcWatch client l options w) as [r2 w2].
  repeat split.
Qed.

(** ** Apply *)

(** X15: [Apply] on a key without resource client ends with the
    not-supported error of [Create], which names the operation "Create",
    in the state it was called in; [Update] is not entered and no resource
    client is called. *)
Theorem Apply_not_supported c kvp w :
  getResourceClientFromKey c (KVKey kvp) = None ->
  outcome_of (Apply c kvp w)
  = Normal (Err (ErrorOperationNotSupported (IdKey (KVKey kvp)) "Create"))
  /\ world_of (Apply c kvp w) = w
  /\ update_attempts (events_of (Apply c kvp w)) = []
  /\ handler_calls (events_of (Apply c kvp w)) = [].
Proof.
  intros Hclient. unfold Apply, Create. unfold_run. simpl. rewrite Hclient.
  repeat split.
Qed.

(** X16: unless [Create] reports that the entry exists, the revision of
    the pair plays no part in [Apply]: the run of [Apply] on a pair is the
    run on the same key and value under any other revision. *)
Theorem Apply_revision_only_for_update c kvp (revision' : string) w :
  (forall ident msg,
      outcome_of (Create c (mkKVPair (KVKey kvp) (KVValue kvp) "") w)
      <> Normal (Err (ErrorResourceAlreadyExists ident msg))) ->
  Apply c (mkKVPair (KVKey kvp) (KVValue kvp) revision') w = Apply c kvp w.
Proof.
  intros Hcreate. unfold Apply, bind, log, ret. cbv beta iota.
  change (KVKey (mkKVPair (KVKey kvp) (KVValue kvp) revision')) with (KVKey kvp).
  change (KVValue (mkKVPair (KVKey kvp) (KVValue kvp) revision')) with (KVValue kvp).
  destruct (Create c (mkKVPair (KVKey kvp) (KVValue kvp) "") w) as [[[r|reason] w1] t1];
    [|reflexivity].
  destruct r as [updated|err]; [reflexivity|].
  destruct err; try reflexivity.
  exfalso. eapply Hcreate. reflexivity.
Qed.

(** ** Host configuration *)

Lemma tunnel_request (l : HostConfigListOptionsStruct) :
  ListName l = "" \/ ListName l = "IpInIpTunnelAddr" ->
  bool_decide (ListName l ≠ "") && bool_decide (ListName l ≠ "IpInIpTunnelAddr") = false.
Proof. intros [-> | ->]; reflexivity. Qed.

(** X17: a request for a host-config name other than the tunnel address is
    answered at once with no pairs, under the revision asked for: no call
    is made on the clientset, the state is as it was and nothing is
    logged, whatever the host name asked for. *)
Theorem listHostConfig_other_name (ext : External W) c (l : HostConfigListOptionsStruct)
    (revision : string) w :
  ListName l <> "" ->
  ListName l <> "IpInIpTunnelAddr" ->
  listHostConfig ext c l revision w = (Normal (Ok (mkKVPairList [] revision)), w, []).
Proof.
  intros Hname Htunnel. unfold listHostConfig.
  rewrite (bool_decide_eq_true_2 _ Hname), (bool_decide_eq_true_2 _ Htunnel).
  reflexivity.
Qed.

(** X18: when the call on the clientset fails, listing the nodes for a
    request about all hosts or getting the node for a request about one,
    [listHostConfig] ends with that error, translated with the request as
    identifier, in the state the call left; no pod CIDR is read. *)
Theorem listHostConfig_api_error (ext : External W) c (l : HostConfigListOptionsStruct)
    (revision : string) w (err : K8sError) (w1 : W) :
  ListName l = "" \/ ListName l = "IpInIpTunnelAddr" ->
  (if decide (ListHostname l = "") then CoreV1NodesList (ClientSet c) w = (inl err, w1)
   else CoreV1NodesGet (ClientSet c) (ListHostname l) w = (inl err, w1)) ->
  listHostConfig ext c l revision w
  = (Normal (Err (K8sErrorToCalico ext err
                    (IdList (HostConfigListOptions (ListHostname l) (ListName l))))),
     w1, [EvNodes (nodesCallFor l)]).
Proof.
  intros Hname Hcall. unfold listHostConfig, nodesCallFor.
  rewrite (tunnel_request l Hname).
  destruct (decide (ListHostname l = "")); unfold bind, nodes_call; rewrite Hcall;
    reflexivity.
Qed.

Lemma getTunIp_quiet (n : K8sNode) w :
  handler_calls (events_of (getTunIp n w)) = []
  /\ nodes_calls (events_of (getTunIp n w)) = [].
Proof.
  unfold getTunIp.
  destruct (decide (PodCIDR n = "")); [split; reflexivity|].
  destruct (ParseCIDR (PodCIDR n)) as [[ip ipnet]|err]; [|split; reflexivity].
  cbv zeta. destruct (To4 ip !! 3%nat); split; reflexivity.
Qed.

Lemma handler_calls_app (a b : list Event) :
  handler_calls (a ++ b) = handler_calls a ++ handler_calls b.
Proof. apply omap_app. Qed.

Lemma nodes_calls_app (a b : list Event) :
  nodes_calls (a ++ b) = nodes_calls a ++ nodes_calls b.
Proof. apply omap_app. Qed.

Lemma listHostConfig_range_quiet (items : list K8sNode) (kvps : list KVPair) w :
  handler_calls (events_of (listHostConfig_range items kvps w)) = []
  /\ nodes_calls (events_of (listHostConfig_range items kvps w)) = [].
Proof.
  revert kvps w. induction items as [|n rest IH]; intros kvps w; [split; reflexivity|].
  simpl listHostConfig_range. unfold bind.
  destruct (getTunIp_quiet n w) as [Hh Hn].
  destruct (getTunIp n w) as [[[r|reason] w1] t1]; unfold events_of in *; simpl in *;
    [|by split].
  assert (Hrest : forall kvps',
             handler_calls (t1 ++ events_of (listHostConfig_range rest kvps' w1)) = []
             /\ nodes_calls (t1 ++ events_of (listHostConfig_range rest kvps' w1)) = []).
  { intros kvps'. destruct (IH kvps' w1) as [Hh' Hn']. unfold events_of.
    by rewrite handler_calls_app, nodes_calls_app, Hh, Hn, Hh', Hn'. }
  destruct r as [[kvp|]|err].
  - specialize (Hrest (kvps ++ [kvp])).
    destruct (listHostConfig_range rest (kvps ++ [kvp]) w1) as [[o w2] t2]. exact Hrest.
  - specialize (Hrest kvps).
    destruct (listHostConfig_range rest kvps w1) as [[o w2] t2]. exact Hrest.
  - specialize (Hrest kvps).
    destruct (listHostConfig_range rest kvps w1) as [[o w2] t2]. exact Hrest.
Qed.

(** X19: [listHostConfig] makes at most one call on the clientset and none
    on a resource client, whatever the nodes are and however the request
    ends: for the tunnel address, one call, listing the nodes when no host
    is named and getting the named node otherwise; for any other name,
    none. *)
Theorem listHostConfig_calls (ext : External W) c (l : HostConfigListOptionsStruct)
    (revision : string) w :
  nodes_calls (events_of (listHostConfig ext c l revision w))
  = (if bool_decide (ListName l ≠ "") && bool_decide (ListName l ≠ "IpInIpTunnelAddr")
     then [] else [nodesCallFor l])
  /\ handler_calls (events_of (listHostConfig ext c l revision w)) = [].
Proof.
  unfold listHostConfig, nodesCallFor.
  destruct (bool_decide (ListName l ≠ "") && bool_decide (ListName l ≠ "IpInIpTunnelAddr"));
    [split; reflexivity|].
  destruct (decide (ListHostname l = "")); unfold bind, nodes_call.
  - destruct (CoreV1NodesList (ClientSet c) w) as [[err|items] w1]; [split; reflexivity|].
    destruct (listHostConfig_range_quiet items [] w1) as [Hh Hn].
    destruct (listHostConfig_range items [] w1) as [[[kvps|reason] w2] t2];
      unfold events_of in *; simpl in *;
      rewrite ?app_nil_r, ?Hh, ?Hn; split; reflexivity.
  - destruct (CoreV1NodesGet (ClientSet c) (ListHostname l) w) as [[err|node] w1];
      [split; reflexivity|].
    destruct (getTunIp_quiet node w1) as [Hh Hn].
    destruct (getTunIp node w1) as [[[r|reason] w2] t2]; unfold events_of in *; simpl in *.
    + destruct r as [[kvp|]|err]; simpl; rewrite ?app_nil_r, ?Hh, ?Hn; split; reflexivity.
    + rewrite ?Hh, ?Hn. split; reflexivity.
Qed.

Lemma ParseCIDR_empty : exists e, ParseCIDR "" = Err e.
Proof. eexists. reflexivity. Qed.

(** X20: for a pod CIDR that parses to an IPv4 address a.b.c.d, [getTunIp]
    gives the text of a.b.c.(d+1 modulo 256) under the name of the node:
    the address is the one written before the slash, the prefix length
    plays no part, and from 255 the last octet goes to 0 without carry
    into the third. *)
Theorem getTunIp_increments_last_octet (n : K8sNode) w (ip : IP) (ipnet : IPNet)
    (o1 o2 o3 o4 : N) :
  ParseCIDR (PodCIDR n) = Ok (ip, ipnet) ->
  To4 ip = [o1; o2; o3; o4] ->
  getTunIp n w
  = (Normal (Ok (Some (mkKVPair (HostConfigKey (Name n) "IpInIpTunnelAddr")
                         (VString (IP_String [o1; o2; o3; ((o4 + 1) mod 256)%N])) ""))),
     w, []).
Proof.
  intros Hparse Hto4. unfold getTunIp.
  destruct (decide (PodCIDR n = "")) as [Hempty|_].
  - rewrite Hempty in Hparse. destruct ParseCIDR_empty as [e He]. congruence.
  - rewrite Hparse. cbv zeta. rewrite Hto4. reflexivity.
Qed.

Lemma getTunIp_unparsable (n : K8sNode) w (e : Error) :
  PodCIDR n <> "" ->
  ParseCIDR (PodCIDR n) = Err e ->
  getTunIp n w
  = (Normal (Err e), w,
     [EvLog Warning "Invalid podCIDR for HostConfig: %s, %s"
        [AString (Name n); AString (PodCIDR n)]]).
Proof.
  intros Hcidr Hparse. unfold getTunIp.
  destruct (decide (PodCIDR n = "")); [contradiction|]. rewrite Hparse. reflexivity.
Qed.

(** X21: the ways [getTunIp] ends.  Without pod CIDR it returns neither
    pair nor error; with a pod CIDR that does not parse it returns the
    parse error; it panics exactly when the pod CIDR parses to an address
    without 4-byte form; and it leaves the state as it was. *)
Theorem getTunIp_outcomes (n : K8sNode) w :
  (PodCIDR n = "" -> outcome_of (getTunIp n w) = Normal (Ok None))
  /\ (forall e, PodCIDR n <> "" -> ParseCIDR (PodCIDR n) = Err e ->
        outcome_of (getTunIp n w) = Normal (Err e))
  /\ ((exists reason, outcome_of (getTunIp n w) = Panicked reason)
      <-> podCIDRWithout4ByteForm n = true)
  /\ world_of (getTunIp n w) = w.
Proof.
  pose proof (getTunIp_run n w) as Hrun.
  split; [|split; [|split]].
  - intros Hempty. destruct n as [name cidr]. simpl in Hempty. subst cidr. reflexivity.
  - intros e Hcidr Hparse. by rewrite (getTunIp_unparsable n w e Hcidr Hparse).
  - destruct (podCIDRWithout4ByteForm n).
    + rewrite Hrun. split; eauto.
    + destruct Hrun as (r & Hout & _). rewrite Hout.
      split; [intros [reason ?]|]; discriminate.
  - destruct (podCIDRWithout4ByteForm n).
    + by rewrite Hrun.
    + by destruct Hrun as (r & _ & Hworld & _).
Qed.

Lemma listHostConfig_range_panics (items : list K8sNode) (kvps : list KVPair) w :
  (exists reason, outcome_of (listHostConfig_range items kvps w) = Panicked reason)
  <-> Exists (fun n => podCIDRWithout4ByteForm n = true) items.
Proof.
  revert kvps. induction items as [|n rest IH]; intros kvps.
  - simpl. rewrite Exists_nil. split; [intros [reason ?]; discriminate|tauto].
  - rewrite Exists_cons. pose proof (getTunIp_run n w) as Hrun.
    simpl listHostConfig_range.
    destruct (podCIDRWithout4ByteForm n) eqn:Hn.
    + unfold bind. rewrite Hrun. split; [by left|]. intros _. eexists. reflexivity.
    + destruct Hrun as (r & Hout & Hworld & _).
      match goal with
      | |- context [bind ?m ?k w] =>
          destruct (bind_run m k w r w (events_of (getTunIp n w))) as (Ho & _ & _)
      end.
      { transitivity (outcome_of (getTunIp n w), world_of (getTunIp n w),
                      events_of (getTunIp n w)); [apply run_eta|].
        by rewrite Hout, Hworld. }
      rewrite Ho.
      destruct r as [[kvp|]|err]; rewrite IH; split; try tauto;
        intros [?|?]; [discriminate|assumption | discriminate|assumption
                       | discriminate|assumption].
Qed.

(** X22: one node is enough to stop a request about all hosts: the request
    panics exactly when some listed node has a pod CIDR that parses to an
    address without 4-byte form, wherever it stands among the nodes and
    whatever the pod CIDRs of the others. *)
Theorem listHostConfig_panics_iff (ext : External W) c (l : HostConfigListOptionsStruct)
    (revision : string) w (items : list K8sNode) (w1 : W) :
  ListName l = "" \/ ListName l = "IpInIpTunnelAddr" ->
  ListHostname l = "" ->
  CoreV1NodesList (ClientSet c) w = (inr items, w1) ->
  ((exists reason, outcome_of (listHostConfig ext c l revision w) = Panicked reason)
   <-> Exists (fun n => podCIDRWithout4ByteForm n = true) items).
Proof.
  intros Hname Hhost Hlist.
  rewrite <- (listHostConfig_range_panics items [] w1).
  unfold listHostConfig. rewrite (tunnel_request l Hname), Hhost. simpl.
  unfold bind, nodes_call. rewrite Hlist.
  destruct (listHostConfig_range items [] w1) as [[[kvps|reason] w2] t2];
    unfold outcome_of; simpl; split; intros [reason' ?]; try discriminate; eauto.
Qed.

(** X23: a request about one host, once the node is fetched, does not fail
    with an error.  It panics if the pod CIDR of the node parses to an
    address without 4-byte form; otherwise it succeeds under the revision
    asked for with at most one pair, keyed by the name of the node, and
    with none when the node has no pod CIDR or one that does not parse:
    the parse error is dropped. *)
Theorem listHostConfig_one_host_outcomes (ext : External W) c
    (l : HostConfigListOptionsStruct) (revision : string) w (node : K8sNode) (w1 : W) :
  ListName l = "" \/ ListName l = "IpInIpTunnelAddr" ->
  ListHostname l <> "" ->
  CoreV1NodesGet (ClientSet c) (ListHostname l) w = (inr node, w1) ->
  if podCIDRWithout4ByteForm node then
    exists reason, outcome_of (listHostConfig ext c l revision w) = Panicked reason
  else
    exists kvps,
      outcome_of (listHostConfig ext c l revision w)
      = Normal (Ok (mkKVPairList kvps revision))
      /\ world_of (listHostConfig ext c l revision w) = w1
      /\ (length kvps <= 1)%nat
      /\ (forall kvp, kvp ∈ kvps ->
            KVKey kvp = HostConfigKey (Name node) "IpInIpTunnelAddr")
      /\ (PodCIDR node = "" -> kvps = [])
      /\ (forall e, ParseCIDR (PodCIDR node) = Err e -> kvps = []).
Proof.
  intros Hname Hhost Hget.
  pose proof (getTunIp_run node w1) as Hrun.
  unfold listHostConfig. rewrite (tunnel_request l Hname).
  destruct (decide (ListHostname l = "")); [contradiction|].
  unfold bind, nodes_call. rewrite Hget.
  destruct (podCIDRWithout4ByteForm node).
  - rewrite Hrun. eexists. reflexivity.
  - destruct Hrun as (r & Hout & Hworld & Hempty & Hkvp).
    assert (Hunparsable : forall e, ParseCIDR (PodCIDR node) = Err e ->
                                    forall kvp, r <> Ok (Some kvp)).
    { intros e Hparse kvp Hr. destruct (Hkvp kvp Hr) as [Hcidr _].
      rewrite (getTunIp_unparsable node w1 e Hcidr Hparse) in Hout.
      unfold outcome_of in Hout. simpl in Hout. congruence. }
    destruct (getTunIp node w1) as [[o w2] t2]. unfold outcome_of, world_of in *.
    simpl in *. subst o w2.
    destruct r as [[kvp|]|err]; simpl.
    + exists [kvp]. split; [reflexivity|]. split; [reflexivity|]. split; [simpl; lia|].
      split; [|split].
      * intros kvp' Hin. apply list_elem_of_singleton in Hin as ->.
        by destruct (Hkvp kvp eq_refl).
      * intros Hcidr. specialize (Hempty Hcidr). discriminate.
      * intros e Hparse. exfalso. by apply (Hunparsable e Hparse kvp).
    + exists []. split; [reflexivity|]. split; [reflexivity|]. split; [simpl; lia|].
      split; [|split]; try reflexivity.
      intros kvp' Hin. by apply elem_of_nil in Hin.
    + exists []. split; [reflexivity|]. split; [reflexivity|]. split; [simpl; lia|].
      split; [|split]; try reflexivity.
      intros kvp' Hin. by apply elem_of_nil in Hin.
Qed.

(** ** Clean: the calls on the resource clients *)




















(** ** The list calls of [Clean] *)















End Coverage.

(** * Further runs on the small clusters *)

Lemma Demo_NewKubeClient (usePodCIDR : bool) :
  NewKubeClient Demo.external (Demo.config usePodCIDR) = Ok (Demo.client usePodCIDR).
Proof. destruct usePodCIDR; vm_compute; reflexivity. Defined.

Lemma NewKubeClient_kinds_witness :
  NewKubeClient Demo.external (Demo.config true) = Ok (Demo.client true)
  /\ (is_Some (getResourceClientFromKey (Demo.client true)
                 (ResourceKey KindNetworkPolicy "default" "allow-dns"))
      <-> KindNetworkPolicy ∈ registeredKinds)
  /\ getResourceClientFromKey (Demo.client true) (ResourceKey KindIPAMBlock "" "10-244-1-0-26")
     = None.
Proof.
  pose proof (Demo_NewKubeClient true) as Hnew.
  destruct (NewKubeClient_kinds Demo.external (Demo.config true) (Demo.client true) Hnew)
    as (Hkey & _ & Hipam).
  split; [exact Hnew|]. split; [apply Hkey|apply Hipam].
Defined.

Lemma NewKubeClient_list_types_witness :
  NewKubeClient Demo.external (Demo.config false) = Ok (Demo.client false)
  /\ isIPAMQuery (BlockListOptions 4) = true
  /\ (is_Some (getResourceClientFromList (Demo.client false) (BlockListOptions 4))
      <-> K8sUsePodCIDR (Demo.config false) = false
          /\ isIPAMListType (TypeOfList (BlockListOptions 4)) = true).
Proof.
  pose proof (Demo_NewKubeClient false) as Hnew.
  split; [exact Hnew|]. split; [reflexivity|].
  exact (NewKubeClient_list_types Demo.external (Demo.config false) (Demo.client false)
           (BlockListOptions 4) Hnew eq_refl).
Defined.

Lemma NewKubeClient_unrouted_witness :
  NewKubeClient Demo.external (Demo.config false) = Ok (Demo.client false)
  /\ outcome_of (Get (Demo.client false) ReadyFlagKey "" 0%nat)
     = Normal (Err (ErrorOperationNotSupported (IdKey ReadyFlagKey) "Get"))
  /\ outcome_of (List (Demo.client false) (HostConfigListOptions "" "IpInIpTunnelAddr") ""
                   0%nat)
     = Normal (Err (ErrorOperationNotSupported
                      (IdList (HostConfigListOptions "" "IpInIpTunnelAddr")) "List")).
Proof.
  pose proof (Demo_NewKubeClient false) as Hnew.
  destruct (NewKubeClient_unrouted Demo.external (Demo.config false) (Demo.client false) Hnew)
    as (_ & Hready & Hhost).
  split; [exact Hnew|]. split; [apply Hready|apply Hhost].
Defined.

Lemma Clean_queries_registered_witness :
  NewKubeClient Demo.external (Demo.config true) = Ok (Demo.client true)
  /\ Forall (fun kind => is_Some (getResourceClientFromList (Demo.client true)
                                    (ResourceListOptions kind "" "")))
       (cleanKinds ++ [KindNode])
  /\ Forall (fun li => getResourceClientFromList (Demo.client true) li = None) cleanIPAMLists
  /\ getResourceClientFromKey (Demo.client true) IPAMConfigKey = None.
Proof.
  pose proof (Demo_NewKubeClient true) as Hnew.
  destruct (Clean_queries_registered Demo.external (Demo.config true) (Demo.client true) Hnew)
    as (Hkinds & Hipam).
  split; [exact Hnew|]. split; [exact Hkinds|exact Hipam].
Defined.

Lemma NewKubeClient_components_witness :
  NewKubeClient Demo.external (Demo.config true) = Ok (Demo.client true)
  /\ exists config,
       CreateKubernetesClientset Demo.external (Demo.config true)
       = Ok (config, ClientSet (Demo.client true))
       /\ adminpolicyclient_NewForConfig Demo.external config
          = inr (k8sAdminPolicyClient (Demo.client true))
       /\ (exists crdConfig,
             rest_RESTClientFor Demo.external crdConfig = inr (crdClientV1 (Demo.client true))
             /\ ContentType crdConfig = ContentTypeJSON
             /\ Burst crdConfig = Burst config)
       /\ disableNodePoll (Demo.client true) = false.
Proof.
  pose proof (Demo_NewKubeClient true) as Hnew.
  destruct (NewKubeClient_components Demo.external (Demo.config true) (Demo.client true) Hnew)
    as (config & Hcreate & Hpolicy
        & (crdConfig & Hcrd & _ & _ & Hjson & _ & _ & _ & _ & Hburst) & Hpoll).
  split; [exact Hnew|]. exists config.
  split; [exact Hcreate|]. split; [exact Hpolicy|]. split; [|exact Hpoll].
  exists crdConfig. split; [exact Hcrd|]. split; [exact Hjson|exact Hburst].
Defined.

Lemma NewKubeClient_failure_witness :
  NewKubeClient (Fleet.external true true) (Demo.config true)
  = Err (ErrorWrapped "Failed to build V1 CRD client: %v" (mkK8sError "BadConfig" "crd"))
  /\ exists config cs,
       CreateKubernetesClientset (Fleet.external true true) (Demo.config true)
       = Ok (config, cs)
       /\ rest_RESTClientFor (Fleet.external true true) (forCRD config)
          = inl (mkK8sError "BadConfig" "crd").
Proof.
  assert (Hnew : NewKubeClient (Fleet.external true true) (Demo.config true)
                 = Err (ErrorWrapped "Failed to build V1 CRD client: %v"
                          (mkK8sError "BadConfig" "crd")))
    by (vm_compute; reflexivity).
  split; [exact Hnew|].
  destruct (NewKubeClient_failure (Fleet.external true true) (Demo.config true) _ Hnew)
    as [Hcreate|(config & cs & Hcreate & Hbuild)].
  - vm_compute in Hcreate. discriminate.
  - exists config, cs. split; [exact Hcreate|]. reflexivity.
Defined.

Lemma CreateKubernetesClientset_config_witness :
  exists config cs,
    CreateKubernetesClientset Demo.external (Demo.config true) = Ok (config, cs)
    /\ Burst config = 100%Z
    /\ ContentType config = ContentTypeProtobuf
    /\ Host config = "https://10.0.0.1:6443".
Proof.
  destruct (CreateKubernetesClientset Demo.external (Demo.config true))
    as [[config cs]|e] eqn:Hcreate; [|vm_compute in Hcreate; discriminate].
  destruct (CreateKubernetesClientset_config Demo.external (Demo.config true) config cs Hcreate)
    as (_ & Hburst & Hcontent & _).
  exists config, cs. split; [reflexivity|]. split; [exact Hburst|]. split; [exact Hcontent|].
  vm_compute in Hcreate. injection Hcreate as <- _. reflexivity.
Defined.

Lemma inline_kubeconfig_takes_precedence_witness :
  KubeconfigInline Demo.inlineConfigSpec <> ""
  /\ CreateKubernetesClientset Demo.external
       (mkCalicoAPIConfigSpec "/etc/kube/other.conf" "https://192.0.2.1:443" "key.pem"
          "cert.pem" "ca.pem" "" false true true "apiVersion: v1" 0 "staging")
     = CreateKubernetesClientset Demo.external Demo.inlineConfigSpec.
Proof.
  assert (Hinline : KubeconfigInline Demo.inlineConfigSpec <> "") by discriminate.
  split; [exact Hinline|].
  exact (inline_kubeconfig_takes_precedence Demo.external Demo.inlineConfigSpec _
           Hinline eq_refl eq_refl).
Defined.

Lemma dispatch_by_key_delegates_witness :
  getResourceClientFromKey (Demo.client true) (ResourceKey KindIPPool "" "pool-1")
  = Some Demo.entriesClient
  /\ outcome_of (Get (Demo.client true) (ResourceKey KindIPPool "" "pool-1") "41" 0%nat)
     = Normal (Ok Demo.entry1)
  /\ handler_calls
       (events_of (Delete (Demo.client true) (ResourceKey KindIPPool "" "pool-1") "41" 0%nat))
     = [HDelete (ResourceKey KindIPPool "" "pool-1") "41" None].
Proof.
  assert (Hclient : getResourceClientFromKey (Demo.client true)
                      (ResourceKey KindIPPool "" "pool-1") = Some Demo.entriesClient)
    by (vm_compute; reflexivity).
  destruct (dispatch_by_key_delegates (Demo.client true) Demo.entriesClient
              (ResourceKey KindIPPool "" "pool-1") Hclient NilValue "41" 0%nat)
    as (_ & _ & _ & (_ & _ & Hdelete) & (Hget & _)).
  split; [exact Hclient|]. split; [exact Hget|exact Hdelete].
Defined.

Lemma dispatch_by_list_delegates_witness :
  getResourceClientFromList (Demo.client true) (ResourceListOptions KindNode "" "")
  = Some Demo.nodeClient
  /\ outcome_of (List (Demo.client true) (ResourceListOptions KindNode "" "") "9" 0%nat)
     = Normal (Ok (mkKVPairList [Demo.nodeEntry] "9")).
Proof.
  assert (Hclient : getResourceClientFromList (Demo.client true)
                      (ResourceListOptions KindNode "" "") = Some Demo.nodeClient)
    by (vm_compute; reflexivity).
  destruct (dispatch_by_list_delegates (Demo.client true) Demo.nodeClient
              (ResourceListOptions KindNode "" "") Hclient "9" (mkWatchOptions "" false) 0%nat)
    as ((Hlist & _) & _).
  split; [exact Hclient|exact Hlist].
Defined.

Lemma Apply_not_supported_witness :
  getResourceClientFromKey Demo.bare (KVKey Demo.entry1) = None
  /\ outcome_of (Apply Demo.bare Demo.entry1 0%nat)
     = Normal (Err (ErrorOperationNotSupported (IdKey (KVKey Demo.entry1)) "Create"))
  /\ world_of (Apply Demo.bare Demo.entry1 0%nat) = 0%nat.
Proof.
  assert (Hclient : getResourceClientFromKey Demo.bare (KVKey Demo.entry1) = None)
    by reflexivity.
  destruct (Apply_not_supported Demo.bare Demo.entry1 0%nat Hclient) as (Hout & Hworld & _).
  split; [exact Hclient|]. split; [exact Hout|exact Hworld].
Defined.

Lemma Apply_revision_only_for_update_witness :
  Apply Demo.bare (mkKVPair (KVKey Demo.entry1) (KVValue Demo.entry1) "7") 0%nat
  = Apply Demo.bare Demo.entry1 0%nat.
Proof.
  apply (Apply_revision_only_for_update Demo.bare Demo.entry1 "7" 0%nat).
  intros ident msg. discriminate.
Defined.

Lemma listHostConfig_other_name_witness :
  listHostConfig Demo.external (Fleet.client true) (mkHostConfigListOptions "node-6" "LogLevel")
    "3" 0%nat
  = (Normal (Ok (mkKVPairList [] "3")), 0%nat, []).
Proof.
  apply (listHostConfig_other_name Demo.external (Fleet.client true)
           (mkHostConfigListOptions "node-6" "LogLevel") "3" 0%nat); discriminate.
Defined.

Lemma listHostConfig_api_error_witness :
  listHostConfig Demo.external Fleet.cutOff (mkHostConfigListOptions "node-1" "") "3" 0%nat
  = (Normal (Err (ErrorDatastoreError (IdList (HostConfigListOptions "node-1" "")) "node-1")),
     1%nat, [EvNodes (NodesGet "node-1")]).
Proof.
  exact (listHostConfig_api_error Demo.external Fleet.cutOff
           (mkHostConfigListOptions "node-1" "") "3" 0%nat (mkK8sError "Timeout" "node-1")
           1%nat (or_introl eq_refl) eq_refl).
Defined.

Lemma getTunIp_increments_last_octet_witness :
  ParseCIDR (PodCIDR Fleet.lastAddress)
  = Ok ([10; 1; 4; 255]%N, mkIPNet [10; 1; 4; 0]%N [255; 255; 255; 0]%N)
  /\ getTunIp Fleet.lastAddress 0%nat
     = (Normal (Ok (Some (mkKVPair (HostConfigKey "node-4" "IpInIpTunnelAddr")
                            (VString "10.1.4.0") ""))), 0%nat, []).
Proof.
  assert (Hparse : ParseCIDR (PodCIDR Fleet.lastAddress)
                   = Ok ([10; 1; 4; 255]%N, mkIPNet [10; 1; 4; 0]%N [255; 255; 255; 0]%N))
    by (vm_compute; reflexivity).
  split; [exact Hparse|].
  exact (getTunIp_increments_last_octet Fleet.lastAddress 0%nat _ _ 10 1 4 255 Hparse eq_refl).
Defined.

Lemma listHostConfig_panics_iff_witness :
  CoreV1NodesList (ClientSet (Fleet.client true)) 0%nat = (inr (Fleet.nodes true), 1%nat)
  /\ exists reason,
       outcome_of (listHostConfig Demo.external (Fleet.client true)
                     (mkHostConfigListOptions "" "") "3" 0%nat) = Panicked reason.
Proof.
  assert (Hlist : CoreV1NodesList (ClientSet (Fleet.client true)) 0%nat
                  = (inr (Fleet.nodes true), 1%nat)) by reflexivity.
  split; [exact Hlist|].
  apply (listHostConfig_panics_iff Demo.external (Fleet.client true)
           (mkHostConfigListOptions "" "") "3" 0%nat (Fleet.nodes true) 1%nat
           (or_introl eq_refl) eq_refl Hlist).
  unfold Fleet.nodes. apply Exists_cons_tl, Exists_cons_tl, Exists_cons_hd.
  vm_compute. reflexivity.
Defined.

Lemma listHostConfig_one_host_outcomes_witness :
  CoreV1NodesGet (ClientSet (Fleet.client false)) "node-3" 0%nat
  = (inr Fleet.unparsable, 1%nat)
  /\ (exists e, ParseCIDR (PodCIDR Fleet.unparsable) = Err e)
  /\ outcome_of (listHostConfig Demo.external (Fleet.client false)
                   (mkHostConfigListOptions "node-3" "IpInIpTunnelAddr") "3" 0%nat)
     = Normal (Ok (mkKVPairList [] "3")).
Proof.
  assert (Hget : CoreV1NodesGet (ClientSet (Fleet.client false)) "node-3" 0%nat
                 = (inr Fleet.unparsable, 1%nat)) by (vm_compute; reflexivity).
  assert (Hparse : ParseCIDR (PodCIDR Fleet.unparsable) = Err (ErrorParse "10.1.3.0"))
    by (vm_compute; reflexivity).
  split; [exact Hget|]. split; [eauto|].
  pose proof (listHostConfig_one_host_outcomes Demo.external (Fleet.client false)
                (mkHostConfigListOptions "node-3" "IpInIpTunnelAddr") "3" 0%nat
                Fleet.unparsable 1%nat (or_intror eq_refl) ltac:(discriminate) Hget) as Hrun.
  assert (Hflag : podCIDRWithout4ByteForm Fleet.unparsable = false)
    by (vm_compute; reflexivity).
  rewrite Hflag in Hrun.
  destruct Hrun as (kvps & Hout & _ & _ & _ & _ & Hnone).
  rewrite Hout, (Hnone _ Hparse). reflexivity.
Defined.


Lemma CreateKubernetesClientset_failure_witness :
  CreateKubernetesClientset Fleet.noKubeconfig (Demo.config true)
  = Err (ErrorDatastoreError IdNil "")
  /\ exists err,
       ErrorDatastoreError IdNil "" = K8sErrorToCalico Fleet.noKubeconfig err IdNil
       /\ NewNonInteractiveDeferredLoadingClientConfig Fleet.noKubeconfig
            (loadingRulesOf (Demo.config true)) (configOverridesOf (Demo.config true))
          = inl err.
Proof.
  assert (Hcreate : CreateKubernetesClientset Fleet.noKubeconfig (Demo.config true)
                    = Err (ErrorDatastoreError IdNil "")) by (vm_compute; reflexivity).
  split; [exact Hcreate|].
  destruct (CreateKubernetesClientset_failure Fleet.noKubeconfig (Demo.config true) _ Hcreate)
    as (err & Htranslated & [[Hinline _]|[[_ Hload]|(config & Hbuild & _)]]).
  - exfalso. by apply Hinline.
  - exists err. by split.
  - discriminate.
Defined.


(** C9, as stated, fails: on the small cluster, in either mode,
    requesting the readiness key through [Get] does not return a pair
    whose value is true; it ends with the not-supported error. *)
Lemma Get_readiness_key_not_supported :
  NewKubeClient Demo.external (Demo.config false) = Ok (Demo.client false)
  /\ NewKubeClient Demo.external (Demo.config true) = Ok (Demo.client true)
  /\ (forall usePodCIDR : bool,
        outcome_of (Get (Demo.client usePodCIDR) ReadyFlagKey "" 0%nat)
        = Normal (Err (ErrorOperationNotSupported (IdKey ReadyFlagKey) "Get")))
  /\ ~ (forall c (revision : string) (w : Demo.World),
          exists kvp, outcome_of (Get c ReadyFlagKey revision w) = Normal (Ok kvp)
                      /\ KVValue kvp = VBool true).
Proof.
  assert (Hget : forall usePodCIDR : bool,
             outcome_of (Get (Demo.client usePodCIDR) ReadyFlagKey "" 0%nat)
             = Normal (Err (ErrorOperationNotSupported (IdKey ReadyFlagKey) "Get")))
    by (intros []; vm_compute; reflexivity).
  split; [vm_compute; reflexivity|]. split; [vm_compute; reflexivity|].
  split; [exact Hget|].
  intros Hall. destruct (Hall (Demo.client false) "" 0%nat) as (kvp & Hout & _).
  rewrite (Hget false) in Hout. discriminate.
Qed.

Lemma getReadyStatus_not_reached_by_Get_witness :
  NewKubeClient Demo.external (Demo.config true) = Ok (Demo.client true)
  /\ getReadyStatus (Demo.client true) mkReadyFlagKey "7" 0%nat
     = (Normal (Ok (mkKVPair ReadyFlagKey (VBool true) "")), 0%nat, [])
  /\ outcome_of (Get (Demo.client true) ReadyFlagKey "7" 0%nat)
     = Normal (Err (ErrorOperationNotSupported (IdKey ReadyFlagKey) "Get"))
  /\ world_of (Get (Demo.client true) ReadyFlagKey "7" 0%nat) = 0%nat
  /\ handler_calls (events_of (Get (Demo.client true) ReadyFlagKey "7" 0%nat)) = [].
Proof.
  pose proof (Demo_NewKubeClient true) as Hnew.
  split; [exact Hnew|].
  destruct (getReadyStatus_not_reached_by_Get Demo.external (Demo.config true)
              (Demo.client true) mkReadyFlagKey "7" 0%nat Hnew)
    as (Hready & _ & Hout & Hworld & Hcalls & _).
  split; [exact Hready|]. split; [exact Hout|]. split; [exact Hworld|exact Hcalls].
Defined.


(** On the small cluster every delete and update is refused, and [Clean]
    still calls the resource clients 75 times: [List] 25 times, [Delete]
    41 times (two entries for each of the twenty kinds, and the IPAM
    config), [DeleteKVP] 8 times and [Update] once. *)
Lemma Clean_calls_with_every_write_refused :
  length (handler_calls (events_of (Clean (Demo.client false) 0%nat))) = 75%nat
  /\ length (list_calls (events_of (Clean (Demo.client false) 0%nat))) = 25%nat
  /\ length (delete_calls (events_of (Clean (Demo.client false) 0%nat))) = 41%nat
  /\ length (deletekvp_calls (events_of (Clean (Demo.client false) 0%nat))) = 8%nat
  /\ update_calls (events_of (Clean (Demo.client false) 0%nat))
     = [withoutBGP Demo.nodeEntry].
Proof. vm_compute. repeat split. Qed.
